(** * gomatrix: the transport and the session controller of the Matrix client

    A shallow embedding of [Client.MakeRequest], [HandleRetry],
    [Client.CreateFilter], [Client.SyncRequest] and [Client.Sync], together
    with the properties of the long-poll loop and of the rate-limit handling.

    Everything outside the package (net/http, encoding/json, the clock, the
    scheduler of the other goroutines) and the two collaborators the client is
    constructed with ([Storer], [Syncer]) is an interface over an abstract
    world [W].  A run of a method yields its result, the calls it made on
    those interfaces, in order, and the final state. *)

From Stdlib Require Import ZArith String List Ascii DecimalString Lia.
From Stdlib.Strings Require Import Byte.
From Stdlib Require DecimalPos DecimalZ.
From stdpp Require Import gmap strings list.

Local Open Scope string_scope.
Local Open Scope list_scope.
Local Open Scope Z_scope.

(** ** Go primitives used by the client *)

Module Go.

(** Two's complement wrap-around of a signed [bits]-bit integer. *)
Definition wrap (bits : Z) (x : Z) : Z :=
  let m := 2 ^ bits in
  let r := x mod m in
  if r <? m / 2 then r else r - m.

Definition int64 (x : Z) : Z := wrap 64 x.
Definition uint32 (x : Z) : Z := x mod 2 ^ 32.

Definition minInt64 : Z := - 2 ^ 63.
Definition maxInt64 : Z := 2 ^ 63 - 1.

(** [time.Second], in nanoseconds, the unit of [time.Duration]. *)
Definition Second : Z := 1000000000.

(** [t.Sub(u)] saturates at the bounds of [time.Duration]; instants are
    nanoseconds since the epoch. *)
Definition time_Sub (t u : Z) : Z :=
  let d := t - u in
  if d <? minInt64 then minInt64
  else if maxInt64 <? d then maxInt64
  else d.

(** [time.Until(t)] is [t.Sub(time.Now())]. *)
Definition time_Until (t now : Z) : Z := time_Sub t now.

Definition digit (c : ascii) : option Z :=
  let n := Z.of_N (N_of_ascii c) in
  if (48 <=? n) && (n <=? 57) then Some (n - 48) else None.

Fixpoint digits (acc : Z) (s : string) : option Z :=
  match s with
  | EmptyString => Some acc
  | String c s' =>
      match digit c with
      | Some d => digits (acc * 10 + d) s'
      | None => None
      end
  end.

(** [strconv.Atoi] on a 64-bit platform: an optional sign, at least one
    decimal digit, nothing else, and a value that fits [int]. *)
Definition strconv_Atoi (s : string) : option Z :=
  match s with
  | EmptyString => None
  | String c rest =>
      let '(neg, body) :=
        if Ascii.eqb c "-" then (true, rest)
        else if Ascii.eqb c "+" then (false, rest)
        else (false, s) in
      match body with
      | EmptyString => None
      | _ =>
          match digits 0 body with
          | Some n =>
              let v := if neg then - n else n in
              if (minInt64 <=? v) && (v <=? maxInt64) then Some v else None
          | None => None
          end
      end
  end.

(** [strconv.Itoa]. *)
Definition strconv_Itoa (i : Z) : string :=
  DecimalString.NilZero.string_of_int (Z.to_int i).

(** [http.TimeFormat]. *)
Definition http_TimeFormat : string := "Mon, 02 Jan 2006 15:04:05 GMT".

End Go.

(** ** Data model *)

(** [RespError], the standard JSON error body of a homeserver. *)
Record RespError := { ErrCode : string; Err : string }.

(** [HTTPError]; the wrapped error is any Go [error], hence the parameter. *)
Record HTTPError_ (E : Type) := {
  Contents : list byte;
  WrappedError : option E;
  Message : string;
  Code : Z
}.
Arguments Contents {E} _.
Arguments WrappedError {E} _.
Arguments Message {E} _.
Arguments Code {E} _.

(** The values of Go's [error] interface that reach the client. *)
#[warnings="-register-all"]
Inductive GoError : Type :=
| errors_New (text : string)
| RespError_error (e : RespError)
| HTTPError_error (e : HTTPError_ GoError)
| foreign_error (pkg text : string).

Definition HTTPError : Type := HTTPError_ GoError.

(** [RespError.Error]. *)
Definition RespError_Error (e : RespError) : string :=
  ErrCode e +:+ ": " +:+ Err e.

(** [json.RawMessage]. *)
Definition RawMessage : Type := list byte.

Record RespCreateFilter := { FilterID : string }.

(** [RespSync]: the cursor, and the event partitions, which the session
    controller hands on without looking at them. *)
Record RespSync := { NextBatch : string; Partitions : list byte }.

(** A response body is a stream: the bytes it delivers and how it ends
    (end of file, or a read error). *)
Record BodyStream := { body_bytes : list byte; body_err : option GoError }.

(** [http.Header] is [map[string][]string]. *)
Definition Header_Get (h : gmap string (list string)) (key : string) : string :=
  match h !! key with
  | Some (v :: _) => v
  | _ => ""
  end.

Definition Header_Set (h : gmap string (list string)) (key value : string)
  : gmap string (list string) :=
  <[key := [value]]> h.

Record Response := {
  StatusCode : Z;
  Header : gmap string (list string);
  Body : option BodyStream
}.

Record Request := {
  Method : string;
  URL : string;
  URL_Path : string;
  ReqHeader : gmap string (list string);
  ReqBody : option (list byte)
}.

Definition Request_set_header (req : Request) (key value : string) : Request :=
  {| Method := Method req; URL := URL req; URL_Path := URL_Path req;
     ReqHeader := Header_Set (ReqHeader req) key value;
     ReqBody := ReqBody req |}.

(** [ioutil.ReadAll]. *)
Definition ioutil_ReadAll (b : BodyStream) : list byte * option GoError :=
  (body_bytes b, body_err b).

(** The fields of [Client] that no method of the sync engine writes. *)
Record Client := {
  HomeserverURL : string;
  Prefix : string;
  UserID : string;
  AccessToken : string;
  AppServiceUserID : string
}.

(** The calls a run makes on its collaborators, and the reads and writes of
    the generation counter. *)
Inductive Event : Type :=
| EvIncrementSyncingID (v : Z)
| EvGetSyncingID (v : Z)
| EvLoadNextBatch (userID : string)
| EvLoadFilterID (userID : string)
| EvSaveFilterID (userID filterID : string)
| EvSaveNextBatch (userID nextBatch : string)
| EvGetFilterJSON (userID : string)
| EvOnFailedSync (res : option RespSync) (err : GoError)
| EvProcessResponse (res : RespSync) (since : string)
| EvCreateFilter (filter : RawMessage)
| EvSyncRequest (timeout : Z) (since filterID : string) (fullState : bool)
                (setPresence : string)
| EvDo (req : Request)
| EvSleep (d : Z).

(** ** Interfaces *)

(** net/http, the clock and the other goroutines.  [other_goroutines] gives
    the number of [incrementSyncingID] calls (from [StopSync] or from another
    [Sync]) that took the mutex since this goroutine last held it. *)
Class Runtime (W : Type) := {
  http_Client_Do : Request -> W -> option Response * option GoError * W;
  time_Now : W -> Z;
  time_Sleep : Z -> W -> W;
  other_goroutines : W -> nat * W
}.

(** The [Storer] interface, as far as [Sync] calls it.  Its declaration is
    not among the sources at hand: the methods and their arguments are those
    of the calls in [Sync]. *)
Class Storer (W : Type) := {
  LoadNextBatch : string -> W -> string * W;
  SaveNextBatch : string -> string -> W -> W;
  LoadFilterID : string -> W -> string * W;
  SaveFilterID : string -> string -> W -> W
}.

(** The [Syncer] interface, from the calls in [Sync] in the same way.  A nil
    [*RespSync] is [None]. *)
Class Syncer (W : Type) := {
  ProcessResponse : RespSync -> string -> W -> option GoError * W;
  OnFailedSync : option RespSync -> GoError -> W -> Z * option GoError * W;
  GetFilterJSON : string -> W -> RawMessage * W
}.

(** [json.NewEncoder(buf).Encode(v)]. *)
Class JSONEncode (Q : Type) := json_Encode : Q -> list byte + GoError.

(** [json.NewDecoder(body).Decode(&v)], [v] holding a pointer to an [R]:
    the pointee after the call, and the error. *)
Class JSONDecode (R : Type) := json_Decode : BodyStream -> R -> R * option GoError.

(** ** Runs *)

Inductive Res (A : Type) : Type :=
| Val (a : A)
| Panic (msg : string)
| OutOfFuel.
Arguments Val {A} a.
Arguments Panic {A} msg.
Arguments OutOfFuel {A}.

Section Runs.

Context {W : Type}.

(** The state a method runs in: the generation counter of the client and
    the world. *)
Record St := { syncingID : Z; world : W }.

Record Run (A : Type) := {
  result : Res A;
  events : list Event;
  final : St
}.
Arguments result {A} _.
Arguments events {A} _.
Arguments final {A} _.

Definition M (A : Type) : Type := St -> Run A.

Definition ret {A} (a : A) : M A :=
  fun st => {| result := Val a; events := []; final := st |}.

Definition bind {A B} (m : M A) (f : A -> M B) : M B :=
  fun st =>
    let r := m st in
    match result r with
    | Val a =>
        let r' := f a (final r) in
        {| result := result r'; events := events r ++ events r';
           final := final r' |}
    | Panic msg => {| result := Panic msg; events := events r; final := final r |}
    | OutOfFuel => {| result := OutOfFuel; events := events r; final := final r |}
    end.

Definition panic {A} (msg : string) : M A :=
  fun st => {| result := Panic msg; events := []; final := st |}.

Definition out_of_fuel {A} : M A :=
  fun st => {| result := OutOfFuel; events := []; final := st |}.

(** One call on a collaborator: the event, then the change of the world. *)
Definition call {A} (ev : Event) (f : W -> A * W) : M A :=
  fun st =>
    let r := f (world st) in
    {| result := Val (fst r); events := [ev];
       final := {| syncingID := syncingID st; world := snd r |} |}.

End Runs.

Arguments St W : clear implicits.
Arguments Run W A : clear implicits.
Arguments M W A : clear implicits.
Arguments result {W A} _.
Arguments events {W A} _.
Arguments final {W A} _.

#[export] Instance M_ret {W} : MRet (M W) := fun A a => ret a.
#[export] Instance M_bind {W} : MBind (M W) := fun A B f m => bind m f.

(** ** The client *)

Section Client.

Context {W : Type} `{!Runtime W} `{!Storer W} `{!Syncer W}.
Context `{!JSONEncode RawMessage}.
Context `{!JSONDecode (option RespCreateFilter)} `{!JSONDecode (option RespSync)}.

(** [time.Parse(layout, value)]: the instant, or nothing on a parse error. *)
Variable time_Parse : string -> string -> option Z.
(** [http.NewRequest(method, url, body)]. *)
Variable http_NewRequest : string -> string -> option (list byte) -> Request + GoError.
(** [json.Unmarshal(contents, &respErr)] on a zero [RespError]: the struct
    after the call, and the error. *)
Variable json_Unmarshal_RespError : list byte -> RespError * option GoError.
(** net/url and path: the homeserver URL with the joined path elements (and
    the [user_id] of an application service), and a URL with query
    parameters set. *)
Variable url_join : string -> list string -> string -> string.
Variable url_set_query : string -> gmap string string -> string.

Variable cli : Client.

(** *** Primitive steps *)

Definition Client_Do (req : Request) : M W (option Response * option GoError) :=
  call (EvDo req) (http_Client_Do req).

Definition Sleep (d : Z) : M W unit :=
  call (EvSleep d) (fun w => (tt, time_Sleep d w)).

Definition Now : M W Z :=
  fun st => {| result := Val (time_Now (world st)); events := []; final := st |}.

Definition Store_LoadNextBatch (userID : string) : M W string :=
  call (EvLoadNextBatch userID) (LoadNextBatch userID).

Definition Store_LoadFilterID (userID : string) : M W string :=
  call (EvLoadFilterID userID) (LoadFilterID userID).

Definition Store_SaveFilterID (userID filterID : string) : M W unit :=
  call (EvSaveFilterID userID filterID) (fun w => (tt, SaveFilterID userID filterID w)).

Definition Store_SaveNextBatch (userID nextBatch : string) : M W unit :=
  call (EvSaveNextBatch userID nextBatch) (fun w => (tt, SaveNextBatch userID nextBatch w)).

Definition Syncer_GetFilterJSON (userID : string) : M W RawMessage :=
  call (EvGetFilterJSON userID) (GetFilterJSON userID).

Definition Syncer_OnFailedSync (res : option RespSync) (err : GoError)
  : M W (Z * option GoError) :=
  call (EvOnFailedSync res err) (OnFailedSync res err).

Definition Syncer_ProcessResponse (res : RespSync) (since : string)
  : M W (option GoError) :=
  call (EvProcessResponse res since) (ProcessResponse res since).

(** [incrementSyncingID]: under the mutex, [cli.syncingID++] on a [uint32],
    after the increments the other goroutines made meanwhile. *)
Definition incrementSyncingID : M W Z :=
  fun st =>
    let r := other_goroutines (world st) in
    let v := Go.uint32 (Go.uint32 (syncingID st + Z.of_nat (fst r)) + 1) in
    {| result := Val v; events := [EvIncrementSyncingID v];
       final := {| syncingID := v; world := snd r |} |}.

(** [getSyncingID]. *)
Definition getSyncingID : M W Z :=
  fun st =>
    let r := other_goroutines (world st) in
    let v := Go.uint32 (syncingID st + Z.of_nat (fst r)) in
    {| result := Val v; events := [EvGetSyncingID v];
       final := {| syncingID := v; world := snd r |} |}.

(** [StopSync]. *)
Definition StopSync : M W unit :=
  _ ← incrementSyncingID; mret tt.

(** *** URLs *)

Definition BuildBaseURL (urlPath : list string) : string :=
  url_join (HomeserverURL cli) urlPath (AppServiceUserID cli).

Definition BuildURL (urlPath : list string) : string :=
  BuildBaseURL (Prefix cli :: urlPath).

Definition BuildURLWithQuery (urlPath : list string) (urlQuery : gmap string string)
  : string :=
  url_set_query (BuildURL urlPath) urlQuery.

(** *** Transport *)

(** [HandleRetry]; [now] is the clock that [time.Until] reads. *)
Definition HandleRetry (res : Response) (duration : Z) (now : Z)
  : Z * option GoError :=
  let ra := Header_Get (Header res) "Retry-After" in
  if decide (ra = "") then (duration, None)
  else
    match time_Parse Go.http_TimeFormat ra with
    | Some t => (Go.time_Until t now, None)
    | None =>
        match Go.strconv_Atoi ra with
        | Some seconds => (Go.int64 (seconds * Go.Second), None)
        | None => (duration, Some (errors_New "invalid retry-after data"))
        end
    end.

(** The default backoff declared at the head of [MakeRequest]: 5 seconds. *)
Definition sleep : Z := 5000000000.

(** The request [MakeRequest] sends: the encoded body if there is one, the
    content type, and the bearer token if the client has one. *)
Definition new_request {Q} `{!JSONEncode Q} (method httpURL : string)
    (reqBody : option Q) : Request + GoError :=
  let built :=
    match reqBody with
    | Some q =>
        match json_Encode q with
        | inl buf => http_NewRequest method httpURL (Some buf)
        | inr err => inr err
        end
    | None => http_NewRequest method httpURL None
    end in
  match built with
  | inr err => inr err
  | inl req =>
      let req := Request_set_header req "Content-Type" "application/json" in
      inl (if decide (AccessToken cli = "") then req
           else Request_set_header req "Authorization"
                  ("Bearer " +:+ AccessToken cli))
  end.

(** The error [MakeRequest] returns for a response that is neither 2xx nor
    429 and whose body was read as [contents]. *)
Definition http_error (method : string) (req : Request) (res : Response)
    (contents : list byte) : HTTPError :=
  let respErr := fst (json_Unmarshal_RespError contents) in
  let wrap :=
    if decide (ErrCode respErr = "") then None
    else Some (RespError_error respErr) in
  let msg := "Failed to " +:+ method +:+ " JSON to " +:+ URL_Path req in
  let msg :=
    match wrap with
    | None => msg +:+ ": " +:+ string_of_list_byte contents
    | Some _ => msg
    end in
  {| Contents := contents; Code := StatusCode res; Message := msg;
     WrappedError := wrap |}.

(** The tail of [MakeRequest]: decode the body into the result object when
    there is one. *)
Definition decode_response {R} `{!JSONDecode R} (res : Response)
    (resBody : option R) : M W (option R * option GoError) :=
  match resBody, Body res with
  | Some r, Some body =>
      let '(r', err) := json_Decode body r in
      mret (Some r', err)
  | _, _ => mret (resBody, None)
  end.

(** [MakeRequest].  [resBody] is the object the caller's pointer points to,
    or [None] for a nil interface; the run returns that object as the call
    leaves it, next to the error.  [fuel] bounds the depth of the
    recursion. *)
Fixpoint MakeRequest {Q R} `{!JSONEncode Q} `{!JSONDecode R} (fuel : nat)
    (method httpURL : string) (reqBody : option Q) (resBody : option R)
    {struct fuel} : M W (option R * option GoError) :=
  match fuel with
  | O => out_of_fuel
  | S fuel' =>
      match new_request method httpURL reqBody with
      | inr err => mret (resBody, Some err)
      | inl req =>
          '(res, err) ← Client_Do req;
          match err with
          | Some e => mret (resBody, Some e)
          | None =>
              match res with
              | None => panic "nil pointer dereference"
              | Some res =>
                  if decide (StatusCode res = 429) then
                    now ← Now;
                    let '(dur, err) := HandleRetry res sleep now in
                    match err with
                    | Some e => mret (resBody, Some e)
                    | None =>
                        _ ← Sleep dur;
                        '(resBody', _) ← MakeRequest fuel' method httpURL reqBody resBody;
                        decode_response res resBody'
                    end
                  else if decide (Z.quot (StatusCode res) 100 ≠ 2) then
                    match Body res with
                    | None => panic "nil pointer dereference"
                    | Some body =>
                        let '(contents, err) := ioutil_ReadAll body in
                        match err with
                        | Some e => mret (resBody, Some e)
                        | None =>
                            mret (resBody,
                                  Some (HTTPError_error (http_error method req res contents)))
                        end
                    end
                  else decode_response res resBody
              end
          end
      end
  end.

(** [CreateFilter]. *)
Definition CreateFilter (fuel : nat) (filter : RawMessage)
  : M W (option RespCreateFilter * option GoError) :=
  _ ← call (EvCreateFilter filter) (fun w => (tt, w));
  let urlPath := BuildURL ["user"; UserID cli; "filter"] in
  '(resp, err) ← MakeRequest fuel "POST" urlPath (Some filter) (Some None);
  mret (default None resp, err).

(** The query of [SyncRequest]. *)
Definition sync_query (timeout : Z) (since filterID : string) (fullState : bool)
    (setPresence : string) : gmap string string :=
  let query : gmap string string := {[ "timeout" := Go.strconv_Itoa timeout ]} in
  let query := if decide (filterID = "") then query else <["filter" := filterID]> query in
  let query := if fullState then <["full_state" := "true"]> query else query in
  let query := if decide (setPresence = "") then query
               else <["set_presence" := setPresence]> query in
  if decide (since = "") then query else <["since" := since]> query.

(** [SyncRequest]. *)
Definition SyncRequest (fuel : nat) (timeout : Z) (since filterID : string)
    (fullState : bool) (setPresence : string)
  : M W (option RespSync * option GoError) :=
  _ ← call (EvSyncRequest timeout since filterID fullState setPresence)
           (fun w => (tt, w));
  let urlPath := BuildURLWithQuery ["sync"]
                   (sync_query timeout since filterID fullState setPresence) in
  '(resp, err) ← MakeRequest fuel "GET" urlPath (@None RawMessage) (Some None);
  mret (default None resp, err).

(** *** Session controller *)

(** How one pass through the body of the [for] loop of [Sync] ends: with
    [continue] or at the end of the body, carrying the cursor variable, or
    with a [return]. *)
Inductive LoopStep : Type :=
| Continue (nextBatch : string)
| Return (err : option GoError).

(** The body of the [for] loop of [Sync]. *)
Definition sync_iteration (rfuel : nat) (id : Z) (nextBatch filterID : string)
  : M W LoopStep :=
  '(resSync, err) ← SyncRequest rfuel 30000 nextBatch filterID false "";
  match err with
  | Some err =>
      '(duration, err2) ← Syncer_OnFailedSync resSync err;
      match err2 with
      | Some err2 => mret (Return (Some err2))
      | None => _ ← Sleep duration; mret (Continue nextBatch)
      end
  | None =>
      current ← getSyncingID;
      if decide (current ≠ id) then mret (Return None)
      else
        match resSync with
        | None => panic "nil pointer dereference"
        | Some resSync =>
            _ ← Store_SaveNextBatch (UserID cli) (NextBatch resSync);
            err ← Syncer_ProcessResponse resSync nextBatch;
            match err with
            | Some err => mret (Return (Some err))
            | None => mret (Continue (NextBatch resSync))
            end
        end
  end.

(** The [for] loop of [Sync]; [fuel] bounds the number of iterations and
    [rfuel] the recursion of each request. *)
Fixpoint sync_loop (rfuel fuel : nat) (id : Z) (nextBatch filterID : string)
  : M W (option GoError) :=
  match fuel with
  | O => out_of_fuel
  | S fuel' =>
      step ← sync_iteration rfuel id nextBatch filterID;
      match step with
      | Continue nextBatch' => sync_loop rfuel fuel' id nextBatch' filterID
      | Return err => mret err
      end
  end.

(** [Sync]. *)
Definition Sync (rfuel fuel : nat) : M W (option GoError) :=
  id ← incrementSyncingID;
  nextBatch ← Store_LoadNextBatch (UserID cli);
  filterID ← Store_LoadFilterID (UserID cli);
  if decide (filterID = "") then
    filterJSON ← Syncer_GetFilterJSON (UserID cli);
    '(resFilter, err) ← CreateFilter rfuel filterJSON;
    match err with
    | Some err => mret (Some err)
    | None =>
        match resFilter with
        | None => panic "nil pointer dereference"
        | Some resFilter =>
            let filterID := FilterID resFilter in
            _ ← Store_SaveFilterID (UserID cli) filterID;
            sync_loop rfuel fuel id nextBatch filterID
        end
    end
  else sync_loop rfuel fuel id nextBatch filterID.

End Client.

(** ** Credentials, errors as text, and the other requests *)

(** [SetCredentials] and [ClearCredentials], on the fields of the client. *)
Definition SetCredentials (cli : Client) (userID accessToken : string) : Client :=
  {| HomeserverURL := HomeserverURL cli; Prefix := Prefix cli;
     UserID := userID; AccessToken := accessToken;
     AppServiceUserID := AppServiceUserID cli |}.

Definition ClearCredentials (cli : Client) : Client :=
  {| HomeserverURL := HomeserverURL cli; Prefix := Prefix cli;
     UserID := ""; AccessToken := "";
     AppServiceUserID := AppServiceUserID cli |}.

(** What [%v] prints for a [[]byte]: the bytes in decimal, in brackets. *)
Definition fmt_v_bytes (bs : list byte) : string :=
  "[" +:+ String.concat " " (map (fun b => Go.strconv_Itoa (Z.of_N (Byte.to_N b))) bs)
      +:+ "]".

(** [HTTPError.Error]; [Error] is the method of the wrapped error. *)
Definition HTTPError_Error {E} (Error : E -> string) (e : HTTPError_ E) : string :=
  let wrappedErrMsg :=
    match WrappedError e with
    | Some w => Error w
    | None => ""
    end in
  "contents=" +:+ fmt_v_bytes (Contents e) +:+ " msg=" +:+ Message e
    +:+ " code=" +:+ Go.strconv_Itoa (Code e) +:+ " wrapped=" +:+ wrappedErrMsg.

(** The [Error] method of an error value. *)
Fixpoint GoError_Error (e : GoError) : string :=
  match e with
  | errors_New text => text
  | RespError_error r => RespError_Error r
  | HTTPError_error h => HTTPError_Error GoError_Error h
  | foreign_error _ text => text
  end.

(** [RespUserInteractive]; a flow is its list of stages, and the values of
    [Params] stay raw JSON. *)
Record Flow := { Stages : list string }.

Record RespUserInteractive := {
  Flows : list Flow;
  Params : gmap string RawMessage;
  Session : string;
  Completed : list string;
  UIA_ErrCode : string;
  UIA_Error : string
}.

(** The loop of [HasSingleStageFlow] over the flows. *)
Fixpoint has_single_stage (flows : list Flow) (stageName : string) : bool :=
  match flows with
  | [] => false
  | f :: rest =>
      if Nat.eqb (length (Stages f)) 1 && String.eqb (nth 0 (Stages f) "") stageName
      then true
      else has_single_stage rest stageName
  end.

(** [RespUserInteractive.HasSingleStageFlow]. *)
Definition HasSingleStageFlow (r : RespUserInteractive) (stageName : string) : bool :=
  has_single_stage (Flows r) stageName.

Record RespRegister := {
  Register_AccessToken : string;
  Register_DeviceID : string;
  Register_HomeServer : string;
  Register_RefreshToken : string;
  Register_UserID : string
}.

Record RespMediaUpload := { ContentURI : string }.

(** [cli.Client.Do] for a request whose body is a reader: the request as
    [http.NewRequest] built it, the reader, and the [ContentLength] set on the
    request. *)
Class Uploads (W : Type) :=
  http_Client_Do_reader :
    Request -> BodyStream -> Z -> W -> option Response * option GoError * W.

(** The string the transaction id is made of at the clock [nano]
    ([strconv.FormatInt] in base 10 is [strconv.Itoa]). *)
Definition txnID_at (nano : Z) : string := "go" +:+ Go.strconv_Itoa nano.

Section Requests.

Context {W : Type} `{!Runtime W} `{!Uploads W}.
Context `{!JSONDecode (option RespRegister)} `{!JSONDecode RespMediaUpload}.

Variable time_Parse : string -> string -> option Z.
Variable http_NewRequest : string -> string -> option (list byte) -> Request + GoError.
Variable json_Unmarshal_RespError : list byte -> RespError * option GoError.
(** [json.Unmarshal(contents, &uiaResp)] on a nil [*RespUserInteractive]: the
    pointer after the call, and the error. *)
Variable json_Unmarshal_UIA : list byte -> option RespUserInteractive * option GoError.
Variable url_join : string -> list string -> string -> string.

Variable cli : Client.

(** [txnID]. *)
Definition txnID : M W string :=
  now ← Now; mret (txnID_at now).

(** [register]; [req] is the [*ReqRegister], which [MakeRequest] gets as a
    non-nil interface. *)
Definition register {Q} `{!JSONEncode Q} (fuel : nat) (u : string) (req : Q)
  : M W (option RespRegister * option RespUserInteractive * option GoError) :=
  '(resp, err) ← MakeRequest time_Parse http_NewRequest json_Unmarshal_RespError cli
                   fuel "POST" u (Some req) (Some None);
  let resp := default None resp in
  match err with
  | Some (HTTPError_error httpErr) =>
      if decide (Code httpErr = 401) then
        let '(uiaResp, err) := json_Unmarshal_UIA (Contents httpErr) in
        mret (resp, uiaResp, err)
      else mret (resp, None, err)
  | _ => mret (resp, None, err)
  end.

(** [Register]. *)
Definition Register {Q} `{!JSONEncode Q} (fuel : nat) (req : Q)
  : M W (option RespRegister * option RespUserInteractive * option GoError) :=
  register fuel (BuildURL url_join cli ["register"]) req.

(** The request [UploadToContentRepo] sends, before its [ContentLength] is
    set. *)
Definition upload_request (contentType : string) : Request + GoError :=
  match http_NewRequest "POST" (BuildBaseURL url_join cli ["_matrix/media/r0/upload"]) None with
  | inr err => inr err
  | inl req =>
      let req := Request_set_header req "Content-Type" contentType in
      inl (Request_set_header req "Authorization" ("Bearer " +:+ AccessToken cli))
  end.

(** [UploadToContentRepo]. *)
Definition UploadToContentRepo (content : BodyStream) (contentType : string)
    (contentLength : Z) : M W (option RespMediaUpload * option GoError) :=
  match upload_request contentType with
  | inr err => mret (None, Some err)
  | inl req =>
      '(res, err) ← call (EvDo req) (http_Client_Do_reader req content contentLength);
      match err with
      | Some err => mret (None, Some err)
      | None =>
          match res with
          | None => panic "nil pointer dereference"
          | Some res =>
              if decide (StatusCode res ≠ 200) then
                match Body res with
                | None => panic "nil pointer dereference"
                | Some body =>
                    let '(contents, err) := ioutil_ReadAll body in
                    match err with
                    | Some err =>
                        mret (None,
                              Some (HTTPError_error
                                {| Contents := [];
                                   WrappedError := None;
                                   Message := "Upload request failed - Failed to read response body: "
                                                +:+ GoError_Error err;
                                   Code := StatusCode res |}))
                    | None =>
                        mret (None,
                              Some (HTTPError_error
                                {| Contents := contents;
                                   WrappedError := None;
                                   Message := "Upload request failed: "
                                                +:+ string_of_list_byte contents;
                                   Code := StatusCode res |}))
                    end
                end
              else
                match Body res with
                | None => panic "nil pointer dereference"
                | Some body =>
                    let '(m, err) := json_Decode body {| ContentURI := "" |} in
                    match err with
                    | Some err => mret (None, Some err)
                    | None => mret (Some m, None)
                    end
                end
          end
      end
  end.

End Requests.

(** ** Traces *)

Definition is_transport (e : Event) : bool :=
  match e with EvDo _ | EvSleep _ => true | _ => false end.

Definition is_round_trip (e : Event) : bool :=
  match e with EvDo _ => true | _ => false end.

Definition is_long_poll (e : Event) : bool :=
  match e with EvSyncRequest _ _ _ _ _ => true | _ => false end.

Definition is_persist (e : Event) : bool :=
  match e with EvSaveNextBatch _ _ => true | _ => false end.

Definition is_dispatch (e : Event) : bool :=
  match e with EvProcessResponse _ _ => true | _ => false end.

Definition is_filter_negotiation (e : Event) : bool :=
  match e with
  | EvGetFilterJSON _ | EvCreateFilter _ | EvSaveFilterID _ _ => true
  | _ => false
  end.

(** The events only the [for] loop of [Sync] produces. *)
Definition is_loop_event (e : Event) : bool :=
  match e with
  | EvSyncRequest _ _ _ _ _ | EvGetSyncingID _ | EvSaveNextBatch _ _
  | EvProcessResponse _ _ | EvOnFailedSync _ _ => true
  | _ => false
  end.

(** All the events of [evs] are of the kind [k]; none is. *)
Definition all_of (k : Event -> bool) (evs : list Event) : Prop :=
  Forall (fun e => k e = true) evs.
Definition none_of (k : Event -> bool) (evs : list Event) : Prop :=
  Forall (fun e => k e = false) evs.

(** The cursor last persisted in [evs], or [nextBatch] when [evs] persists
    none. *)
Definition cursor_after (nextBatch : string) (evs : list Event) : string :=
  fold_left
    (fun cursor e =>
       match e with EvSaveNextBatch _ t => t | _ => cursor end)
    evs nextBatch.

(** [required e] is the event that must come directly before [e], if any;
    [follows required evs] says that it does, for every event of [evs]. *)
Definition follows (required : Event -> option Event) (evs : list Event) : Prop :=
  forall pre e post prev,
    evs = pre ++ e :: post -> required e = Some prev ->
    exists pre', pre = pre' ++ [prev].

(** A dispatch requires the persisting of the cursor of its snapshot. *)
Definition persist_required (userID : string) (e : Event) : option Event :=
  match e with
  | EvProcessResponse r _ => Some (EvSaveNextBatch userID (NextBatch r))
  | _ => None
  end.

(** The persisting of a cursor by the loop of generation [id] requires a
    read of the generation counter that gave [id]. *)
Definition check_required (id : Z) (e : Event) : option Event :=
  match e with
  | EvSaveNextBatch _ _ => Some (EvGetSyncingID id)
  | _ => None
  end.

(** What follows the request in one iteration of generation [id] with the
    cursor [nextBatch], and the way the iteration ends. *)
Inductive iteration_ends (userID : string) (id : Z) (nextBatch : string)
  : list Event -> Res LoopStep -> Prop :=
| ends_in_request res :
    (forall s, res <> Val s) ->
    iteration_ends userID id nextBatch [] res
| ends_fatal resSync err err2 :
    iteration_ends userID id nextBatch
      [EvOnFailedSync resSync err] (Val (Return (Some err2)))
| ends_backoff resSync err d :
    iteration_ends userID id nextBatch
      [EvOnFailedSync resSync err; EvSleep d] (Val (Continue nextBatch))
| ends_superseded current :
    current <> id ->
    iteration_ends userID id nextBatch
      [EvGetSyncingID current] (Val (Return None))
| ends_nil_snapshot msg :
    iteration_ends userID id nextBatch
      [EvGetSyncingID id] (Panic msg)
| ends_dispatch_failed r err :
    iteration_ends userID id nextBatch
      [EvGetSyncingID id; EvSaveNextBatch userID (NextBatch r);
       EvProcessResponse r nextBatch]
      (Val (Return (Some err)))
| ends_dispatched r :
    iteration_ends userID id nextBatch
      [EvGetSyncingID id; EvSaveNextBatch userID (NextBatch r);
       EvProcessResponse r nextBatch]
      (Val (Continue (NextBatch r))).

(** The traces of the loop of generation [id] with the filter [filterID],
    entered with the cursor [nextBatch]. *)
Inductive loop_trace (userID : string) (id : Z) (filterID : string)
  : string -> list Event -> Prop :=
| loop_not_entered nextBatch :
    loop_trace userID id filterID nextBatch []
| loop_last nextBatch hs tail res :
    all_of is_transport hs ->
    iteration_ends userID id nextBatch tail res ->
    loop_trace userID id filterID nextBatch
      (EvSyncRequest 30000 nextBatch filterID false "" :: hs ++ tail)
| loop_again nextBatch nextBatch' hs tail rest :
    all_of is_transport hs ->
    iteration_ends userID id nextBatch tail (Val (Continue nextBatch')) ->
    loop_trace userID id filterID nextBatch' rest ->
    loop_trace userID id filterID nextBatch
      (EvSyncRequest 30000 nextBatch filterID false "" :: hs ++ tail ++ rest).

(** The events of the start of [Sync]: the new generation and the two
    loads. *)
Definition is_start_event (e : Event) : bool :=
  match e with
  | EvIncrementSyncingID _ | EvLoadNextBatch _ | EvLoadFilterID _ => true
  | _ => false
  end.

(** The user a call on the store, or for the filter document, names. *)
Definition event_user (e : Event) : option string :=
  match e with
  | EvLoadNextBatch u | EvLoadFilterID u | EvSaveFilterID u _
  | EvSaveNextBatch u _ | EvGetFilterJSON u => Some u
  | _ => None
  end.

(** [e], if a long-poll, is one of 30 seconds with the filter [filterID],
    without full state and without a presence. *)
Definition long_poll_of (filterID : string) (e : Event) : Prop :=
  match e with
  | EvSyncRequest timeout _ f fullState setPresence =>
      timeout = 30000 /\ f = filterID /\ fullState = false /\ setPresence = ""
  | _ => True
  end.

(** The [since] of the last long-poll of [evs], or [start]. *)
Definition last_since (start : option string) (evs : list Event) : option string :=
  fold_left
    (fun last e =>
       match e with EvSyncRequest _ since _ _ _ => Some since | _ => last end)
    evs start.

(** The traces of the filter negotiation of [Sync]: none, one that fails in
    [CreateFilter], or one that ends with the writing of the new id. *)
Inductive negotiation_trace (userID : string) : list Event -> Prop :=
| negotiation_skipped : negotiation_trace userID []
| negotiation_failed filter hs :
    all_of is_transport hs ->
    negotiation_trace userID
      (EvGetFilterJSON userID :: EvCreateFilter filter :: hs)
| negotiation_done filter hs filterID :
    all_of is_transport hs ->
    negotiation_trace userID
      (EvGetFilterJSON userID :: EvCreateFilter filter :: hs
         ++ [EvSaveFilterID userID filterID]).

(** ** A scripted world

    A server that gives a list of answers and then one answer for ever, a
    list of concurrent [StopSync] counts, a store in memory, a syncer that
    accepts every snapshot and asks for ten seconds after a failed sync, and
    just enough JSON to read the string fields of a flat object.  The
    theorems below hold in every world; this one is there to run them. *)

Module Fixture.

Record World := {
  answers : list (option Response * option GoError);
  fallback : option Response * option GoError;
  stops : list nat;
  cursors : gmap string string;
  filters : gmap string string;
  clock : Z
}.

#[export] Instance runtime : Runtime World := {|
  http_Client_Do _ w :=
    match answers w with
    | a :: rest =>
        (a, {| answers := rest; fallback := fallback w; stops := stops w;
               cursors := cursors w; filters := filters w; clock := clock w |})
    | [] => (fallback w, w)
    end;
  time_Now w := clock w;
  time_Sleep d w :=
    {| answers := answers w; fallback := fallback w; stops := stops w;
       cursors := cursors w; filters := filters w;
       clock := clock w + Z.max d 0 |};
  other_goroutines w :=
    match stops w with
    | k :: rest =>
        (k, {| answers := answers w; fallback := fallback w; stops := rest;
               cursors := cursors w; filters := filters w; clock := clock w |})
    | [] => (0%nat, w)
    end
|}.

#[export] Instance store : Storer World := {|
  LoadNextBatch userID w := (default "" (cursors w !! userID), w);
  SaveNextBatch userID t w :=
    {| answers := answers w; fallback := fallback w; stops := stops w;
       cursors := <[userID := t]> (cursors w); filters := filters w;
       clock := clock w |};
  LoadFilterID userID w := (default "" (filters w !! userID), w);
  SaveFilterID userID f w :=
    {| answers := answers w; fallback := fallback w; stops := stops w;
       cursors := cursors w; filters := <[userID := f]> (filters w);
       clock := clock w |}
|}.

Definition filter_json : RawMessage :=
  list_byte_of_string "{}".

#[export] Instance syncer : Syncer World := {|
  ProcessResponse _ _ w := (None, w);
  OnFailedSync _ _ w := (10 * Go.Second, None, w);
  GetFilterJSON _ w := (filter_json, w)
|}.

Definition quote : string := String "034"%char EmptyString.

(** The value of the string field [name] of a flat JSON object. *)
Definition json_field (name s : string) : option string :=
  let key := quote +:+ name +:+ quote +:+ ":" +:+ quote in
  match String.index 0 key s with
  | Some i =>
      let start := (i + String.length key)%nat in
      let rest := String.substring start (String.length s - start) s in
      match String.index 0 quote rest with
      | Some j => Some (String.substring 0 j rest)
      | None => None
      end
  | None => None
  end.

Definition json_object (name value : string) : list byte :=
  list_byte_of_string
    ("{" +:+ quote +:+ name +:+ quote +:+ ":" +:+ quote +:+ value +:+ quote +:+ "}").

Definition syntax_error : GoError :=
  foreign_error "encoding/json" "invalid character looking for beginning of value".

#[export] Instance encode_raw : JSONEncode RawMessage :=
  fun q => inl (q ++ [x0a]).

#[export] Instance decode_filter : JSONDecode (option RespCreateFilter) :=
  fun body r =>
    match body_err body with
    | Some e => (r, Some e)
    | None =>
        let s := string_of_list_byte (body_bytes body) in
        if String.prefix "{" s then
          let old := match r with Some x => FilterID x | None => "" end in
          (Some {| FilterID := default old (json_field "filter_id" s) |}, None)
        else (r, Some syntax_error)
    end.

#[export] Instance decode_sync : JSONDecode (option RespSync) :=
  fun body r =>
    match body_err body with
    | Some e => (r, Some e)
    | None =>
        let s := string_of_list_byte (body_bytes body) in
        if String.prefix "{" s then
          let old := match r with Some x => NextBatch x | None => "" end in
          (Some {| NextBatch := default old (json_field "next_batch" s);
                   Partitions := body_bytes body |}, None)
        else (r, Some syntax_error)
    end.

Definition unmarshal_RespError (contents : list byte) : RespError * option GoError :=
  let s := string_of_list_byte contents in
  if String.prefix "{" s then
    ({| ErrCode := default "" (json_field "errcode" s);
        Err := default "" (json_field "error" s) |}, None)
  else ({| ErrCode := ""; Err := "" |}, Some syntax_error).

Definition time_Parse (layout value : string) : option Z :=
  if decide (layout = Go.http_TimeFormat ∧ value = "Thu, 01 Jan 1970 00:01:00 GMT")
  then Some (60 * Go.Second) else None.

Definition NewRequest (method url : string) (body : option (list byte))
  : Request + GoError :=
  inl {| Method := method; URL := url; URL_Path := url; ReqHeader := ∅;
         ReqBody := body |}.

Definition url_join (homeserver : string) (parts : list string) (asUser : string)
  : string :=
  homeserver +:+ String.concat "/" parts.

Definition url_set_query (url : string) (query : gmap string string) : string :=
  url +:+ "?" +:+
  String.concat "&" (map (fun kv => fst kv +:+ "=" +:+ snd kv) (map_to_list query)).

Definition alice : Client := {|
  HomeserverURL := "https://example.org";
  Prefix := "/_matrix/client/v3";
  UserID := "@alice:example.org";
  AccessToken := "secret";
  AppServiceUserID := ""
|}.

Definition ok (body : list byte) : option Response * option GoError :=
  (Some {| StatusCode := 200; Header := ∅;
           Body := Some {| body_bytes := body; body_err := None |} |}, None).

Definition response (code : Z) (retryAfter : list string) (body : BodyStream)
  : Response :=
  {| StatusCode := code;
     Header := if retryAfter is [] then ∅ else {[ "Retry-After" := retryAfter ]};
     Body := Some body |}.

Definition status (code : Z) (retryAfter : list string) (body : BodyStream)
  : option Response * option GoError :=
  (Some (response code retryAfter body), None).

Definition limited : BodyStream :=
  {| body_bytes := json_object "errcode" "M_LIMIT_EXCEEDED"; body_err := None |}.

Definition server (script : list (option Response * option GoError))
    (otherwise : option Response * option GoError) (stops : list nat)
    (filters : gmap string string) : St World :=
  {| syncingID := 0;
     world := {| answers := script; fallback := otherwise; stops := stops;
                 cursors := ∅; filters := filters; clock := 0 |} |}.

Definition refused : option Response * option GoError :=
  (None, Some (foreign_error "net" "connection refused")).

Definition MakeRequest {Q R} `{!JSONEncode Q} `{!JSONDecode R} :=
  MakeRequest (Q := Q) (R := R) time_Parse NewRequest unmarshal_RespError alice.
(** A GET of [/sync] without a body, into a nil [*RespSync]. *)
Definition poll (fuel : nat) : M World (option (option RespSync) * option GoError) :=
  MakeRequest fuel "GET" "/sync" (@None RawMessage) (Some None).
Definition SyncRequest :=
  SyncRequest time_Parse NewRequest unmarshal_RespError url_join url_set_query alice.
Definition sync_loop :=
  sync_loop time_Parse NewRequest unmarshal_RespError url_join url_set_query alice.
Definition Sync :=
  Sync time_Parse NewRequest unmarshal_RespError url_join url_set_query alice.

Definition CreateFilter :=
  CreateFilter time_Parse NewRequest unmarshal_RespError url_join alice.

(** The request [MakeRequest] builds for a GET of [/sync] without a body. *)
Definition get_sync : Request :=
  Request_set_header
    (Request_set_header
       {| Method := "GET"; URL := "/sync"; URL_Path := "/sync"; ReqHeader := ∅;
          ReqBody := None |}
       "Content-Type" "application/json")
    "Authorization" "Bearer secret".

Definition snapshot (t : string) : RespSync :=
  {| NextBatch := t; Partitions := json_object "next_batch" t |}.

Definition limited_answer : option Response * option GoError :=
  status 429 [] limited.

Definition unexpected_EOF : GoError := foreign_error "io" "unexpected EOF".

(** A first start: the filter is created, then two snapshots arrive. *)
Definition fresh : St World :=
  server [ok (json_object "filter_id" "f1"); ok (json_object "next_batch" "s1");
          ok (json_object "next_batch" "s2")] refused [] ∅.

(** A restart with a filter id in the store. *)
Definition returning : St World :=
  server [ok (json_object "next_batch" "s1")] refused []
    {[ "@alice:example.org" := "f0" ]}.

(** A loop of generation 0 during whose long-poll [StopSync] is called. *)
Definition stopped : St World :=
  server [ok (json_object "next_batch" "s1")] refused [1%nat] ∅.

(** A server that answers 429 for ever, without [Retry-After]. *)
Definition never_ready : St World := server [] limited_answer [] ∅.

(** A server that answers 429 twice and then 200. *)
Definition ready_at_last : St World :=
  server [limited_answer; limited_answer; ok (json_object "next_batch" "s1")]
    refused [] ∅.

(** A server that answers 429 once, with the given [Retry-After] values. *)
Definition limited_once (retryAfter : list string) : St World :=
  server [status 429 retryAfter limited] refused [] ∅.


(** A 403 with a structured error, a 502 from a proxy, and a 500 whose
    body breaks off. *)
Definition forbidden : St World :=
  server [status 403 [] {| body_bytes := json_object "errcode" "M_FORBIDDEN";
                           body_err := None |}] refused [] ∅.

Definition bad_gateway : St World :=
  server [status 502 [] {| body_bytes := list_byte_of_string "<html>";
                           body_err := None |}] refused [] ∅.

Definition cut_off : St World :=
  server [status 500 [] {| body_bytes := []; body_err := Some unexpected_EOF |}]
    refused [] ∅.

(** The world after the next answer of the server. *)
Definition answered (st : St World) : World :=
  snd (http_Client_Do get_sync (world st)).

(** [fresh] after the increment of the generation counter. *)
Definition started : St World := {| syncingID := 1; world := world fresh |}.

(** The worlds in which the server has no answer left but 429. *)
Definition out_of_answers (w : World) : Prop :=
  answers w = [] /\ fallback w = limited_answer.

(** Uploads are answered from the same script. *)
#[export] Instance uploads : Uploads World :=
  fun req _ _ w => http_Client_Do req w.

#[export] Instance decode_register : JSONDecode (option RespRegister) :=
  fun body r =>
    match body_err body with
    | Some e => (r, Some e)
    | None =>
        let s := string_of_list_byte (body_bytes body) in
        if String.prefix "{" s then
          (Some {| Register_AccessToken := default "" (json_field "access_token" s);
                   Register_DeviceID := default "" (json_field "device_id" s);
                   Register_HomeServer := default "" (json_field "home_server" s);
                   Register_RefreshToken := default "" (json_field "refresh_token" s);
                   Register_UserID := default "" (json_field "user_id" s) |}, None)
        else (r, Some syntax_error)
    end.

#[export] Instance decode_upload : JSONDecode RespMediaUpload :=
  fun body m =>
    match body_err body with
    | Some e => (m, Some e)
    | None =>
        let s := string_of_list_byte (body_bytes body) in
        if String.prefix "{" s then
          ({| ContentURI := default (ContentURI m) (json_field "content_uri" s) |}, None)
        else (m, Some syntax_error)
    end.

(** Of a user-interactive answer only the session is read. *)
Definition unmarshal_UIA (contents : list byte)
  : option RespUserInteractive * option GoError :=
  let s := string_of_list_byte contents in
  if String.prefix "{" s then
    (Some {| Flows := []; Params := ∅;
             Session := default "" (json_field "session" s);
             Completed := []; UIA_ErrCode := ""; UIA_Error := "" |}, None)
  else (None, Some syntax_error).

Definition register :=
  register (Q := RawMessage) time_Parse NewRequest unmarshal_RespError unmarshal_UIA
    alice.

Definition UploadToContentRepo :=
  UploadToContentRepo NewRequest url_join alice.

(** The request [MakeRequest] builds for the POST of a registration. *)
Definition post_register : Request :=
  Request_set_header
    (Request_set_header
       {| Method := "POST"; URL := "/register"; URL_Path := "/register";
          ReqHeader := ∅; ReqBody := Some (filter_json ++ [x0a]) |}
       "Content-Type" "application/json")
    "Authorization" "Bearer secret".

(** The request of an upload of a PNG. *)
Definition post_upload : Request :=
  Request_set_header
    (Request_set_header
       {| Method := "POST";
          URL := BuildBaseURL url_join alice ["_matrix/media/r0/upload"];
          URL_Path := BuildBaseURL url_join alice ["_matrix/media/r0/upload"];
          ReqHeader := ∅; ReqBody := None |}
       "Content-Type" "image/png")
    "Authorization" "Bearer secret".

Definition picture : BodyStream :=
  {| body_bytes := list_byte_of_string "PNG"; body_err := None |}.

(** A server that wants user-interactive authentication. *)
Definition interactive : St World :=
  server [status 401 [] {| body_bytes := json_object "session" "xyz";
                           body_err := None |}] refused [] ∅.

(** A server that answers 201 with the content URI. *)
Definition created : St World :=
  server [status 201 [] {| body_bytes := json_object "content_uri" "mxc://a/b";
                           body_err := None |}] refused [] ∅.

(** A snapshot, then a refused connection, then a snapshot. *)
Definition flaky : St World :=
  server [ok (json_object "next_batch" "s1"); refused;
          ok (json_object "next_batch" "s2")] refused []
    {[ "@alice:example.org" := "f0" ]}.

(** A server that cannot be reached. *)
Definition offline : St World := server [] refused [] ∅.

(** A server that answers 200 with the JSON value [null]. *)
Definition null_answer : St World :=
  server [ok (list_byte_of_string "null")] refused [] ∅.

(** [http.NewRequest] refuses a method that is no token. *)
Definition checked_NewRequest (method url : string) (body : option (list byte))
  : Request + GoError :=
  match String.index 0 " " method with
  | Some _ => inr (foreign_error "net/http" "invalid method")
  | None => NewRequest method url body
  end.

End Fixture.

(** Other syncers and decoders for the scripted world. *)

Module Variants.

#[local] Existing Instances Fixture.runtime Fixture.store Fixture.encode_raw.

(** A syncer that cannot process a snapshot, and that gives up at the first
    failed sync. *)
Definition strict_syncer : Syncer Fixture.World := {|
  ProcessResponse _ _ w := (Some (errors_New "cannot process"), w);
  OnFailedSync _ _ w := (0, Some (errors_New "giving up"), w);
  GetFilterJSON _ w := (Fixture.filter_json, w)
|}.

Definition strict_sync_loop :=
  sync_loop (Syncer0 := strict_syncer) (JSONDecode1 := Fixture.decode_sync)
    Fixture.time_Parse Fixture.NewRequest
    Fixture.unmarshal_RespError Fixture.url_join Fixture.url_set_query Fixture.alice.

(** [encoding/json] sets the pointer it decodes into to nil for the JSON
    value [null]. *)
Definition decode_sync_null : JSONDecode (option RespSync) :=
  fun body r =>
    match body_err body with
    | Some e => (r, Some e)
    | None =>
        if String.eqb (string_of_list_byte (body_bytes body)) "null"
        then (None, None)
        else Fixture.decode_sync body r
    end.

Definition null_SyncRequest :=
  SyncRequest (JSONDecode1 := decode_sync_null) Fixture.time_Parse Fixture.NewRequest
    Fixture.unmarshal_RespError Fixture.url_join Fixture.url_set_query Fixture.alice.

Definition null_sync_loop :=
  sync_loop (Syncer0 := Fixture.syncer) (JSONDecode1 := decode_sync_null)
    Fixture.time_Parse Fixture.NewRequest
    Fixture.unmarshal_RespError Fixture.url_join Fixture.url_set_query Fixture.alice.

End Variants.

(** ** Lists and traces *)

Section Trace_facts.

Lemma app_eq_split {A} (a b pre post : list A) (x : A) :
  a ++ b = pre ++ x :: post ->
  (exists post1, a = pre ++ x :: post1 /\ post = post1 ++ b) \/
  (exists pre2, pre = a ++ pre2 /\ b = pre2 ++ x :: post).
Proof.
  revert pre. induction a as [|y a IH]; intros pre Heq.
  - right. exists pre. auto.
  - destruct pre as [|z pre]; simpl in Heq.
    + inversion Heq; subst. left. exists a. auto.
    + inversion Heq as [[Hyz Hrest]]. subst z.
      destruct (IH _ Hrest) as [[post1 [-> ->]]|[pre2 [-> ->]]].
      * left. exists post1. auto.
      * right. exists pre2. auto.
Qed.

Lemma cons_eq_split {A} (y x : A) (l pre post : list A) :
  y :: l = pre ++ x :: post ->
  (pre = [] /\ y = x /\ l = post) \/
  (exists pre1, pre = y :: pre1 /\ l = pre1 ++ x :: post).
Proof.
  destruct pre as [|z pre]; intros Heq; inversion Heq; subst; eauto.
Qed.

Lemma none_of_absent k (evs pre post : list Event) (x : Event) :
  none_of k evs -> k x = true -> evs <> pre ++ x :: post.
Proof.
  intros Hnone Hx ->. apply Forall_app in Hnone as [_ Hnone].
  inversion Hnone; congruence.
Qed.

Lemma none_of_split k (a b pre post : list Event) (x : Event) :
  none_of k a -> k x = true -> a ++ b = pre ++ x :: post ->
  exists pre2, pre = a ++ pre2 /\ b = pre2 ++ x :: post.
Proof.
  intros Hnone Hx Heq.
  destruct (app_eq_split _ _ _ _ _ Heq) as [[post1 [Ha _]]|Hb]; [|assumption].
  exfalso. eapply none_of_absent; eauto.
Qed.

Lemma none_of_app k (a b : list Event) :
  none_of k a -> none_of k b -> none_of k (a ++ b).
Proof. apply Forall_app_2. Qed.

Lemma all_of_none_of k k' (evs : list Event) :
  (forall e, k e = true -> k' e = false) -> all_of k evs -> none_of k' evs.
Proof. intros Hk Hevs. eapply Forall_impl; eauto. Qed.

Lemma none_of_weaken k k' (evs : list Event) :
  (forall e, k e = false -> k' e = false) -> none_of k evs -> none_of k' evs.
Proof. intros Hk Hevs. eapply Forall_impl; eauto. Qed.

Lemma transport_not_loop_event e : is_transport e = true -> is_loop_event e = false.
Proof. now destruct e. Qed.

Lemma transport_not_negotiation e :
  is_transport e = true -> is_filter_negotiation e = false.
Proof. now destruct e. Qed.

Lemma not_loop_event_not_long_poll e : is_loop_event e = false -> is_long_poll e = false.
Proof. now destruct e. Qed.

Lemma not_loop_event_not_persist e : is_loop_event e = false -> is_persist e = false.
Proof. now destruct e. Qed.

Lemma not_loop_event_not_dispatch e : is_loop_event e = false -> is_dispatch e = false.
Proof. now destruct e. Qed.

Lemma cursor_after_app nextBatch a b :
  cursor_after nextBatch (a ++ b) = cursor_after (cursor_after nextBatch a) b.
Proof. apply fold_left_app. Qed.

Lemma cursor_after_none nextBatch evs :
  none_of is_persist evs -> cursor_after nextBatch evs = nextBatch.
Proof.
  induction 1 as [|e evs He _ IH]; [reflexivity|].
  simpl. destruct e; try discriminate; exact IH.
Qed.

(** *** Events that must follow another *)

Lemma follows_none required evs :
  Forall (fun e => required e = None) evs -> follows required evs.
Proof.
  intros Hnone pre e post prev -> Hreq.
  apply Forall_app in Hnone as [_ Hnone]. inversion Hnone; congruence.
Qed.

Lemma follows_app required a b :
  follows required a -> follows required b -> follows required (a ++ b).
Proof.
  intros Ha Hb pre e post prev Heq Hreq.
  destruct (app_eq_split _ _ _ _ _ Heq) as [[post1 [Heqa _]]|[pre2 [-> Heqb]]].
  - eapply Ha; eauto.
  - destruct (Hb _ _ _ _ Heqb Hreq) as [pre' ->].
    exists (a ++ pre'). now rewrite app_assoc.
Qed.

(** [follows] on a trace that is written out. *)
Ltac follows_explicit :=
  let pre := fresh "pre" in
  let Heq := fresh "Heq" in
  let Hreq := fresh "Hreq" in
  intros pre ? ? ? Heq Hreq;
  do 4 (try destruct pre as [|? pre]); simpl in Heq;
  inversion Heq; subst; simpl in Hreq; try discriminate Hreq;
  inversion Hreq; subst;
  match goal with
  | |- exists p, ?l = _ => exists (removelast l); reflexivity
  end.

Lemma iteration_ends_persist userID id nextBatch tail res :
  iteration_ends userID id nextBatch tail res ->
  follows (persist_required userID) tail.
Proof. destruct 1; follows_explicit. Qed.

Lemma iteration_ends_check userID id nextBatch tail res :
  iteration_ends userID id nextBatch tail res ->
  follows (check_required id) tail.
Proof. destruct 1; follows_explicit. Qed.

Lemma loop_trace_follows required userID id filterID nextBatch evs :
  (forall e, is_transport e = true -> required e = None) ->
  (forall t s f fs sp, required (EvSyncRequest t s f fs sp) = None) ->
  (forall nb tail res,
      iteration_ends userID id nb tail res -> follows required tail) ->
  loop_trace userID id filterID nextBatch evs ->
  follows required evs.
Proof.
  intros Htransport Hpoll Htails.
  assert (Hhead : forall nb hs, all_of is_transport hs ->
    follows required (EvSyncRequest 30000 nb filterID false "" :: hs)).
  { intros nb hs Hhs. apply follows_none. constructor; [apply Hpoll|].
    eapply Forall_impl; eauto. }
  induction 1 as [nb|nb hs tail res Hhs Htail|nb nb' hs tail rest Hhs Htail _ IH].
  - apply follows_none. constructor.
  - rewrite app_comm_cons. apply follows_app; eauto.
  - rewrite app_comm_cons. repeat apply follows_app; eauto.
Qed.

Lemma loop_trace_persist userID id filterID nextBatch evs :
  loop_trace userID id filterID nextBatch evs ->
  follows (persist_required userID) evs.
Proof.
  apply loop_trace_follows; try reflexivity.
  - now destruct e.
  - apply iteration_ends_persist.
Qed.

Lemma loop_trace_check userID id filterID nextBatch evs :
  loop_trace userID id filterID nextBatch evs ->
  follows (check_required id) evs.
Proof.
  apply loop_trace_follows; try reflexivity.
  - now destruct e.
  - intros nb tail res. apply iteration_ends_check.
Qed.

(** *** The cursor of each long-poll *)

Lemma iteration_ends_kinds userID id nextBatch tail res :
  iteration_ends userID id nextBatch tail res ->
  none_of is_long_poll tail /\ none_of is_filter_negotiation tail.
Proof. destruct 1; split; repeat constructor. Qed.

Lemma iteration_ends_cursor userID id nextBatch nextBatch' tail :
  iteration_ends userID id nextBatch tail (Val (Continue nextBatch')) ->
  cursor_after nextBatch tail = nextBatch'.
Proof.
  inversion 1 as [res Hres| | | | | |]; subst; try reflexivity.
  now destruct (Hres (Continue nextBatch')).
Qed.

(** Every long-poll of the loop carries the filter id of the loop and, as
    [since], the cursor last persisted before it, or the cursor the loop
    was entered with. *)
Lemma loop_trace_since userID id filterID nextBatch evs :
  loop_trace userID id filterID nextBatch evs ->
  forall pre timeout since f fullState setPresence post,
    evs = pre ++ EvSyncRequest timeout since f fullState setPresence :: post ->
    since = cursor_after nextBatch pre /\ f = filterID.
Proof.
  assert (Hquiet : forall nb hs tail res,
    all_of is_transport hs -> iteration_ends userID id nb tail res ->
    none_of is_long_poll (hs ++ tail)).
  { intros nb hs tail res Hhs Htail. apply none_of_app.
    - eapply all_of_none_of; [|exact Hhs]. now destruct e.
    - eapply iteration_ends_kinds; eauto. }
  induction 1 as [nb|nb hs tail res Hhs Htail|nb nb' hs tail rest Hhs Htail _ IH];
    intros pre timeout since f fullState setPresence post Heq.
  - now destruct pre.
  - apply cons_eq_split in Heq as [[-> [Hhead _]]|[pre1 [-> Hrest]]].
    + now inversion Hhead.
    + exfalso. revert Hrest. apply (none_of_absent is_long_poll); eauto.
  - apply cons_eq_split in Heq as [[-> [Hhead _]]|[pre1 [-> Hrest]]].
    + now inversion Hhead.
    + rewrite app_assoc in Hrest.
      apply (none_of_split is_long_poll) in Hrest as [pre2 [-> Hrest]];
        eauto.
      destruct (IH _ _ _ _ _ _ _ Hrest) as [-> ->]. split; [|reflexivity].
      rewrite app_comm_cons, !cursor_after_app. f_equal.
      rewrite app_comm_cons, cursor_after_app, (cursor_after_none nb).
      * symmetry. eapply iteration_ends_cursor; eauto.
      * constructor; [reflexivity|].
        eapply all_of_none_of; [|exact Hhs]. now destruct e.
Qed.

(** The loop neither asks for a filter document, nor creates a filter,
    nor writes a filter id. *)
Lemma loop_trace_no_negotiation userID id filterID nextBatch evs :
  loop_trace userID id filterID nextBatch evs ->
  none_of is_filter_negotiation evs.
Proof.
  induction 1 as [nb|nb hs tail res Hhs Htail|nb nb' hs tail rest Hhs Htail _ IH].
  - constructor.
  - constructor; [reflexivity|]. apply none_of_app.
    + eapply all_of_none_of; [|exact Hhs]. apply transport_not_negotiation.
    + eapply iteration_ends_kinds; eauto.
  - constructor; [reflexivity|]. repeat apply none_of_app; auto.
    + eapply all_of_none_of; [|exact Hhs]. apply transport_not_negotiation.
    + eapply iteration_ends_kinds; eauto.
Qed.

End Trace_facts.

(** ** Equations of runs *)

Section Run_equations.

Context {W : Type}.
Implicit Types st : St W.

Lemma result_bind {A B} (m : M W A) (f : A -> M W B) st :
  result ((m ≫= f) st) =
  match result (m st) with
  | Val a => result (f a (final (m st)))
  | Panic msg => Panic msg
  | OutOfFuel => OutOfFuel
  end.
Proof. unfold mbind, M_bind, bind. now destruct (result (m st)). Qed.

Lemma events_bind {A B} (m : M W A) (f : A -> M W B) st :
  events ((m ≫= f) st) =
  events (m st) ++
  match result (m st) with
  | Val a => events (f a (final (m st)))
  | _ => []
  end.
Proof.
  unfold mbind, M_bind, bind.
  destruct (result (m st)); simpl; auto using app_nil_r.
Qed.

Lemma final_bind {A B} (m : M W A) (f : A -> M W B) st :
  final ((m ≫= f) st) =
  match result (m st) with
  | Val a => final (f a (final (m st)))
  | _ => final (m st)
  end.
Proof. unfold mbind, M_bind, bind. now destruct (result (m st)). Qed.

(** A property of traces that holds of the empty trace and is kept by
    concatenation holds of a sequence of two computations as soon as it
    holds of both. *)
Lemma events_bind_closed (P : list Event -> Prop) {A B}
    (m : M W A) (f : A -> M W B) st :
  P [] -> (forall a b, P a -> P b -> P (a ++ b)) ->
  P (events (m st)) ->
  (forall a st', P (events (f a st'))) ->
  P (events ((m ≫= f) st)).
Proof.
  intros Hnil Happ Hm Hf. rewrite events_bind.
  apply Happ; [assumption|]. destruct (result (m st)); auto.
Qed.

End Run_equations.

(** ** The transport *)

Section Client_facts.

Context {W : Type} `{!Runtime W} `{!Storer W} `{!Syncer W}.
Context `{!JSONEncode RawMessage}.
Context `{!JSONDecode (option RespCreateFilter)} `{!JSONDecode (option RespSync)}.
Variable time_Parse : string -> string -> option Z.
Variable http_NewRequest : string -> string -> option (list byte) -> Request + GoError.
Variable json_Unmarshal_RespError : list byte -> RespError * option GoError.
Variable url_join : string -> list string -> string -> string.
Variable url_set_query : string -> gmap string string -> string.
Variable cli : Client.

Local Abbreviation HandleRetry := (HandleRetry time_Parse).
Local Abbreviation new_request := (new_request http_NewRequest cli).
Local Abbreviation http_error := (http_error json_Unmarshal_RespError).
Local Abbreviation MakeRequest :=
  (MakeRequest time_Parse http_NewRequest json_Unmarshal_RespError cli).
Local Abbreviation CreateFilter :=
  (CreateFilter time_Parse http_NewRequest json_Unmarshal_RespError url_join cli).
Local Abbreviation SyncRequest :=
  (SyncRequest time_Parse http_NewRequest json_Unmarshal_RespError url_join
     url_set_query cli).
Local Abbreviation sync_iteration :=
  (sync_iteration time_Parse http_NewRequest json_Unmarshal_RespError url_join
     url_set_query cli).
Local Abbreviation sync_loop :=
  (sync_loop time_Parse http_NewRequest json_Unmarshal_RespError url_join
     url_set_query cli).
Local Abbreviation Sync :=
  (Sync time_Parse http_NewRequest json_Unmarshal_RespError url_join
     url_set_query cli).

Implicit Types st : St W.

Lemma decode_response_events {R} `{!JSONDecode R} res (resBody : option R) st :
  events (decode_response res resBody st) = [].
Proof.
  unfold decode_response. destruct resBody, (Body res); try reflexivity.
  now destruct (json_Decode _ _).
Qed.

Lemma decode_response_final {R} `{!JSONDecode R} res (resBody : option R) st :
  final (decode_response res resBody st) = st.
Proof.
  unfold decode_response. destruct resBody, (Body res); try reflexivity.
  now destruct (json_Decode _ _).
Qed.

Lemma getSyncingID_run st :
  exists current st',
    getSyncingID st =
      {| result := Val current; events := [EvGetSyncingID current]; final := st' |}.
Proof. unfold getSyncingID. eauto. Qed.

Lemma incrementSyncingID_run st :
  exists id st',
    incrementSyncingID st =
      {| result := Val id; events := [EvIncrementSyncingID id]; final := st' |}.
Proof. unfold incrementSyncingID. eauto. Qed.

(** [MakeRequest] only talks to the server and sleeps. *)
Lemma MakeRequest_transport {Q R} `{!JSONEncode Q} `{!JSONDecode R} fuel method url
    (reqBody : option Q) (resBody : option R) st :
  all_of is_transport (events (MakeRequest fuel method url reqBody resBody st)).
Proof.
  unfold all_of.
  revert st resBody. induction fuel as [|fuel IH]; intros st resBody;
    cbn [MakeRequest].
  - constructor.
  - destruct (new_request _ _ _) as [req|err]; [|constructor].
    apply events_bind_closed; [constructor | apply Forall_app_2 | repeat constructor |].
    intros [res err] st1.
    destruct err as [e|]; [constructor|].
    destruct res as [res|]; [|constructor].
    destruct (decide _).
    + apply events_bind_closed; [constructor | apply Forall_app_2 | constructor |].
      intros now st2. destruct (HandleRetry _ _ _) as [dur [herr|]]; [constructor|].
      apply events_bind_closed; [constructor | apply Forall_app_2 | repeat constructor |].
      intros _ st3.
      apply events_bind_closed; [constructor | apply Forall_app_2 | apply IH |].
      intros [rb' e'] st4. rewrite decode_response_events. constructor.
    + destruct (decide _).
      * destruct (Body res); [|constructor].
        destruct (ioutil_ReadAll _) as [contents [rerr|]]; constructor.
      * rewrite decode_response_events. constructor.
Qed.

(** The transport leaves the generation counter alone. *)
Lemma bind_keeps_syncingID {A B} (m : M W A) (f : A -> M W B) :
  (forall st, syncingID (final (m st)) = syncingID st) ->
  (forall a st, syncingID (final (f a st)) = syncingID st) ->
  forall st, syncingID (final ((m ≫= f) st)) = syncingID st.
Proof.
  intros Hm Hf st. rewrite final_bind.
  destruct (result (m st)); rewrite ?Hf; apply Hm.
Qed.

Lemma MakeRequest_keeps_syncingID {Q R} `{!JSONEncode Q} `{!JSONDecode R}
    fuel method url (reqBody : option Q) (resBody : option R) st :
  syncingID (final (MakeRequest fuel method url reqBody resBody st)) = syncingID st.
Proof.
  revert st resBody. induction fuel as [|fuel IH]; intros st resBody;
    cbn [MakeRequest]; [reflexivity|].
  destruct (new_request _ _ _) as [req|err]; [|reflexivity].
  apply bind_keeps_syncingID; [reflexivity|]. clear st.
  intros [res err] st.
  destruct err as [e|]; [reflexivity|].
  destruct res as [res|]; [|reflexivity].
  destruct (decide _).
  - apply bind_keeps_syncingID; [reflexivity|]. clear st. intros now st.
    destruct (HandleRetry _ _ _) as [dur [herr|]]; [reflexivity|].
    apply bind_keeps_syncingID; [reflexivity|]. clear st. intros _ st.
    apply bind_keeps_syncingID; [intros; apply IH|]. clear st.
    intros [rb' e'] st. now rewrite decode_response_final.
  - destruct (decide _).
    + destruct (Body res); [|reflexivity].
      destruct (ioutil_ReadAll _) as [contents [rerr|]]; reflexivity.
    + now rewrite decode_response_final.
Qed.

Lemma CreateFilter_keeps_syncingID rfuel filter st :
  syncingID (final (CreateFilter rfuel filter st)) = syncingID st.
Proof.
  unfold CreateFilter.
  apply bind_keeps_syncingID; [reflexivity|]. clear st. intros _ st.
  apply bind_keeps_syncingID; [intros; apply MakeRequest_keeps_syncingID|].
  now intros [resp err] st'.
Qed.

Lemma SyncRequest_events rfuel timeout since filterID fullState setPresence st :
  exists hs,
    events (SyncRequest rfuel timeout since filterID fullState setPresence st) =
      EvSyncRequest timeout since filterID fullState setPresence :: hs /\
    all_of is_transport hs.
Proof.
  unfold SyncRequest. rewrite events_bind. cbn [call events result final].
  rewrite events_bind.
  eexists; split; [reflexivity|].
  apply Forall_app_2; [apply MakeRequest_transport|].
  destruct (result _) as [[resp err]| |]; constructor.
Qed.

Lemma CreateFilter_events rfuel filter st :
  exists hs,
    events (CreateFilter rfuel filter st) = EvCreateFilter filter :: hs /\
    all_of is_transport hs.
Proof.
  unfold CreateFilter. rewrite events_bind. cbn [call events result final].
  rewrite events_bind.
  eexists; split; [reflexivity|].
  apply Forall_app_2; [apply MakeRequest_transport|].
  destruct (result _) as [[resp err]| |]; constructor.
Qed.

(** The trace of one iteration: the request, and one of the ends. *)
Lemma sync_iteration_trace rfuel id nextBatch filterID st :
  exists hs tail,
    events (sync_iteration rfuel id nextBatch filterID st) =
      EvSyncRequest 30000 nextBatch filterID false "" :: hs ++ tail /\
    all_of is_transport hs /\
    iteration_ends (UserID cli) id nextBatch tail
      (result (sync_iteration rfuel id nextBatch filterID st)).
Proof.
  unfold sync_iteration.
  rewrite events_bind, result_bind.
  destruct (SyncRequest_events rfuel 30000 nextBatch filterID false "" st)
    as [hs [-> Hhs]].
  exists hs.
  destruct (result (SyncRequest _ _ _ _ _ _ _)) as [[resSync err]|msg|].
  2,3: exists []; rewrite !app_nil_r; repeat split; auto;
       constructor; discriminate.
  set (st1 := final _). clearbody st1.
  destruct err as [err|].
  - rewrite events_bind, result_bind.
    unfold Syncer_OnFailedSync, call. cbn [result events final].
    destruct (OnFailedSync resSync err (world st1)) as [[duration err2] w].
    cbn [fst snd]. destruct err2 as [err2|].
    + exists [EvOnFailedSync resSync err]. repeat split; auto. constructor.
    + rewrite events_bind, result_bind. cbn.
      exists [EvOnFailedSync resSync err; EvSleep duration].
      repeat split; auto. constructor.
  - rewrite events_bind, result_bind.
    destruct (getSyncingID_run st1) as [current [st2 ->]].
    cbn [result events final].
    destruct (decide (current <> id)) as [Hstale|Hfresh].
    + exists [EvGetSyncingID current]. repeat split; auto. now constructor.
    + apply dec_stable in Hfresh. subst current.
      destruct resSync as [resSync|].
      * rewrite events_bind, result_bind.
        unfold Store_SaveNextBatch, call. cbn [result events final fst snd].
        rewrite events_bind, result_bind.
        unfold Syncer_ProcessResponse, call. cbn [result events final].
        destruct (ProcessResponse _ _ _) as [[err|] w]; cbn;
          eexists; repeat split; auto; constructor.
      * exists [EvGetSyncingID id]. repeat split; auto. constructor.
Qed.

(** The trace of the loop. *)
Lemma sync_loop_trace rfuel fuel id nextBatch filterID st :
  loop_trace (UserID cli) id filterID nextBatch
    (events (sync_loop rfuel fuel id nextBatch filterID st)).
Proof.
  revert nextBatch st. induction fuel as [|fuel IH]; intros nextBatch st;
    cbn [sync_loop].
  - constructor.
  - rewrite events_bind.
    destruct (sync_iteration_trace rfuel id nextBatch filterID st)
      as [hs [tail [-> [Hhs Hends]]]].
    destruct (result (sync_iteration _ _ _ _ _)) as [[nextBatch'|err]|msg|].
    + rewrite <- app_comm_cons, <- app_assoc. eapply loop_again; eauto.
    + cbn. rewrite app_nil_r. eapply loop_last; eauto.
    + rewrite app_nil_r. eapply loop_last; eauto.
    + rewrite app_nil_r. eapply loop_last; eauto.
Qed.

(** *** Rate limiting *)

(** One step of [MakeRequest] on a 429 whose [Retry-After] is accepted:
    the round trip, the sleep, the same call again, and then the decoding
    of the body of the 429 whatever the inner call returned. *)
Lemma MakeRequest_429 {Q R} `{!JSONEncode Q} `{!JSONDecode R} fuel method url
    (reqBody : option Q) (resBody : option R) st req res w1 dur :
  new_request method url reqBody = inl req ->
  http_Client_Do req (world st) = (Some res, None, w1) ->
  StatusCode res = 429 ->
  HandleRetry res sleep (time_Now w1) = (dur, None) ->
  let inner :=
    MakeRequest fuel method url reqBody resBody
      {| syncingID := syncingID st; world := time_Sleep dur w1 |} in
  events (MakeRequest (S fuel) method url reqBody resBody st) =
    EvDo req :: EvSleep dur :: events inner /\
  result (MakeRequest (S fuel) method url reqBody resBody st) =
    match result inner with
    | Val (resBody', _) => result (decode_response res resBody' (final inner))
    | Panic msg => Panic msg
    | OutOfFuel => OutOfFuel
    end.
Proof.
  intros Hreq Hdo Hcode Hretry inner.
  cbn [MakeRequest]. rewrite Hreq.
  rewrite events_bind, result_bind. unfold Client_Do, call.
  cbn [result events final]. rewrite Hdo. cbn [fst snd].
  destruct (decide (StatusCode res = 429)) as [_|]; [|contradiction].
  rewrite events_bind, result_bind. unfold Now.
  cbn [result events final world]. rewrite Hretry.
  rewrite events_bind, result_bind. unfold Sleep, call.
  cbn [result events final world syncingID fst snd].
  rewrite events_bind, result_bind. fold inner.
  destruct (result inner) as [[resBody' err']|msg|]; cbn [app];
    rewrite ?decode_response_events, ?app_nil_r; auto.
Qed.

(** The first round trip of [MakeRequest] when the answer is not a 429. *)
Lemma MakeRequest_other {Q R} `{!JSONEncode Q} `{!JSONDecode R} fuel method url
    (reqBody : option Q) (resBody : option R) st req res w1 :
  new_request method url reqBody = inl req ->
  http_Client_Do req (world st) = (Some res, None, w1) ->
  StatusCode res <> 429 ->
  Z.quot (StatusCode res) 100 <> 2 ->
  result (MakeRequest (S fuel) method url reqBody resBody st) =
    match Body res with
    | None => Panic "nil pointer dereference"
    | Some body =>
        match body_err body with
        | Some e => Val (resBody, Some e)
        | None =>
            Val (resBody,
                 Some (HTTPError_error (http_error method req res (body_bytes body))))
        end
    end.
Proof.
  intros Hreq Hdo Hcode Hclass.
  cbn [MakeRequest]. rewrite Hreq.
  rewrite result_bind. unfold Client_Do, call.
  cbn [result events final]. rewrite Hdo. cbn [fst snd].
  destruct (decide (StatusCode res = 429)) as [|_]; [contradiction|].
  destruct (decide (Z.quot (StatusCode res) 100 <> 2)) as [_|]; [|contradiction].
  destruct (Body res) as [body|]; [|reflexivity].
  unfold ioutil_ReadAll. now destruct (body_err body).
Qed.

(** C7.  On a 429, [MakeRequest] sleeps for the duration [HandleRetry]
    computes from the default of 5 seconds: with no [Retry-After] header,
    5 seconds; with a header that parses as an HTTP date, the time until
    that date, whatever else the header may parse as; with a header that
    does not but parses as an integer, that many seconds. *)
Theorem MakeRequest_backoff_duration {Q R} `{!JSONEncode Q} `{!JSONDecode R}
    fuel method url (reqBody : option Q) (resBody : option R) st req res w1 :
  new_request method url reqBody = inl req ->
  http_Client_Do req (world st) = (Some res, None, w1) ->
  StatusCode res = 429 ->
  (Header res !! "Retry-After" = None ->
   exists rest,
     events (MakeRequest (S fuel) method url reqBody resBody st) =
       EvDo req :: EvSleep 5000000000 :: rest) /\
  (forall t,
     Header_Get (Header res) "Retry-After" <> "" ->
     time_Parse Go.http_TimeFormat (Header_Get (Header res) "Retry-After") = Some t ->
     exists rest,
       events (MakeRequest (S fuel) method url reqBody resBody st) =
         EvDo req :: EvSleep (Go.time_Until t (time_Now w1)) :: rest) /\
  (forall seconds,
     Header_Get (Header res) "Retry-After" <> "" ->
     time_Parse Go.http_TimeFormat (Header_Get (Header res) "Retry-After") = None ->
     Go.strconv_Atoi (Header_Get (Header res) "Retry-After") = Some seconds ->
     exists rest,
       events (MakeRequest (S fuel) method url reqBody resBody st) =
         EvDo req :: EvSleep (Go.int64 (seconds * Go.Second)) :: rest).
Proof.
  intros Hreq Hdo Hcode.
  assert (Hstep : forall dur,
    HandleRetry res sleep (time_Now w1) = (dur, None) ->
    exists rest,
      events (MakeRequest (S fuel) method url reqBody resBody st) =
        EvDo req :: EvSleep dur :: rest).
  { intros dur Hretry.
    destruct (MakeRequest_429 fuel method url reqBody resBody st req res w1 dur)
      as [Hev _]; auto.
    eexists. exact Hev. }
  repeat split.
  - intros Habsent. apply Hstep. unfold HandleRetry, Header_Get.
    rewrite Habsent. reflexivity.
  - intros t Hpresent Hdate. apply Hstep. unfold HandleRetry.
    destruct (decide _) as [|_]; [contradiction|]. now rewrite Hdate.
  - intros seconds Hpresent Hdate Hint. apply Hstep. unfold HandleRetry.
    destruct (decide _) as [|_]; [contradiction|]. now rewrite Hdate, Hint.
Qed.

(** C10.  On a 429 whose [Retry-After] header is not empty and parses
    neither as an HTTP date nor as an integer, [HandleRetry] returns an
    error, and [MakeRequest] returns it after its one round trip: no sleep
    and no second request. *)
Theorem MakeRequest_invalid_retry_after {Q R} `{!JSONEncode Q} `{!JSONDecode R}
    fuel method url (reqBody : option Q) (resBody : option R) st req res w1 :
  new_request method url reqBody = inl req ->
  http_Client_Do req (world st) = (Some res, None, w1) ->
  StatusCode res = 429 ->
  Header_Get (Header res) "Retry-After" <> "" ->
  time_Parse Go.http_TimeFormat (Header_Get (Header res) "Retry-After") = None ->
  Go.strconv_Atoi (Header_Get (Header res) "Retry-After") = None ->
  snd (HandleRetry res sleep (time_Now w1))
    = Some (errors_New "invalid retry-after data") /\
  result (MakeRequest (S fuel) method url reqBody resBody st)
    = Val (resBody, Some (errors_New "invalid retry-after data")) /\
  events (MakeRequest (S fuel) method url reqBody resBody st) = [EvDo req].
Proof.
  intros Hreq Hdo Hcode Hpresent Hdate Hint.
  assert (Hretry : HandleRetry res sleep (time_Now w1)
                   = (sleep, Some (errors_New "invalid retry-after data"))).
  { unfold HandleRetry.
    destruct (decide _) as [|_]; [contradiction|]. now rewrite Hdate, Hint. }
  split; [now rewrite Hretry|].
  cbn [MakeRequest]. rewrite Hreq.
  rewrite events_bind, result_bind. unfold Client_Do, call.
  cbn [result events final]. rewrite Hdo. cbn [fst snd].
  destruct (decide (StatusCode res = 429)) as [_|]; [|contradiction].
  rewrite events_bind, result_bind. unfold Now.
  cbn [result events final world]. rewrite Hretry. split; reflexivity.
Qed.


(** Against a server that goes on answering 429 with a [Retry-After] that
    [HandleRetry] accepts, [MakeRequest] runs out of any fuel. *)
Lemma MakeRequest_limited {Q R} `{!JSONEncode Q} `{!JSONDecode R}
    (limited : W -> Prop) method url (reqBody : option Q) (resBody : option R) req :
  new_request method url reqBody = inl req ->
  (forall w, limited w ->
     exists res w1 dur,
       http_Client_Do req w = (Some res, None, w1) /\
       StatusCode res = 429 /\
       HandleRetry res sleep (time_Now w1) = (dur, None) /\
       limited (time_Sleep dur w1)) ->
  forall fuel st,
    limited (world st) ->
    result (MakeRequest fuel method url reqBody resBody st) = OutOfFuel.
Proof.
  intros Hreq Hserver. induction fuel as [|fuel IH]; intros st Hlimited.
  - reflexivity.
  - destruct (Hserver _ Hlimited) as (res & w1 & dur & Hdo & Hcode & Hretry & Hnext).
    destruct (MakeRequest_429 fuel method url reqBody resBody st req res w1 dur)
      as [_ Hres]; auto.
    now rewrite Hres, (IH {| syncingID := syncingID st; world := time_Sleep dur w1 |}).
Qed.

(** C3, as the code has it.  On a 429 whose [Retry-After] is accepted,
    [MakeRequest] sleeps the backoff and makes the same call again, and
    that call does the same on the next 429: against a server that goes
    on answering 429 ([limited] holds of the world and is kept by a round
    trip and the sleep after it), [MakeRequest] does not return at any
    depth of its recursion; at depth [fuel] it has made [fuel] round trips
    with the same request, each followed by its sleep, and is about to
    make the next. *)
Theorem MakeRequest_429_retries_without_bound {Q R} `{!JSONEncode Q} `{!JSONDecode R}
    (limited : W -> Prop) method url (reqBody : option Q) (resBody : option R) req
    fuel st :
  new_request method url reqBody = inl req ->
  (forall w, limited w ->
     exists res w1 dur,
       http_Client_Do req w = (Some res, None, w1) /\
       StatusCode res = 429 /\
       HandleRetry res sleep (time_Now w1) = (dur, None) /\
       limited (time_Sleep dur w1)) ->
  limited (world st) ->
  result (MakeRequest fuel method url reqBody resBody st) = OutOfFuel /\
  exists durs,
    length durs = fuel /\
    events (MakeRequest fuel method url reqBody resBody st) =
      flat_map (fun dur => [EvDo req; EvSleep dur]) durs.
Proof.
  intros Hreq Hserver. revert st.
  induction fuel as [|fuel IH]; intros st Hlimited.
  - split; [reflexivity|]. now exists [].
  - destruct (Hserver _ Hlimited) as (res & w1 & dur & Hdo & Hcode & Hretry & Hnext).
    destruct (MakeRequest_429 fuel method url reqBody resBody st req res w1 dur)
      as [Hev Hres]; auto.
    destruct (IH {| syncingID := syncingID st; world := time_Sleep dur w1 |} Hnext)
      as [Hinner [durs [Hlen Hevs]]].
    rewrite Hres, Hinner, Hev, Hevs. split; [reflexivity|].
    exists (dur :: durs). split; [simpl; now rewrite Hlen|reflexivity].
Qed.

(** C6, as the code has it.  For a response that is neither 2xx nor 429:
    when its body is read to the end, [MakeRequest] returns an [HTTPError]
    with the status code, the bytes of the body and, when the body decodes
    to a [RespError] with an error code, that error wrapped; when it does
    not, nothing is wrapped and the text of the body is appended to the
    message.  When reading the body fails, [MakeRequest] returns the error
    of the read. *)
Theorem MakeRequest_error_response {Q R} `{!JSONEncode Q} `{!JSONDecode R}
    fuel method url (reqBody : option Q) (resBody : option R) st req res w1 body :
  new_request method url reqBody = inl req ->
  http_Client_Do req (world st) = (Some res, None, w1) ->
  StatusCode res <> 429 ->
  Z.quot (StatusCode res) 100 <> 2 ->
  Body res = Some body ->
  (body_err body = None ->
   exists e : HTTPError,
     result (MakeRequest (S fuel) method url reqBody resBody st)
       = Val (resBody, Some (HTTPError_error e)) /\
     Code e = StatusCode res /\
     Contents e = body_bytes body /\
     (ErrCode (fst (json_Unmarshal_RespError (body_bytes body))) <> "" ->
      WrappedError e
        = Some (RespError_error (fst (json_Unmarshal_RespError (body_bytes body)))) /\
      Message e = "Failed to " +:+ method +:+ " JSON to " +:+ URL_Path req) /\
     (ErrCode (fst (json_Unmarshal_RespError (body_bytes body))) = "" ->
      WrappedError e = None /\
      Message e = ("Failed to " +:+ method +:+ " JSON to " +:+ URL_Path req)
                    +:+ ": " +:+ string_of_list_byte (body_bytes body))) /\
  (forall err,
     body_err body = Some err ->
     result (MakeRequest (S fuel) method url reqBody resBody st)
       = Val (resBody, Some err)).
Proof.
  intros Hreq Hdo Hcode Hclass Hbody.
  rewrite (MakeRequest_other fuel method url reqBody resBody st req res w1);
    auto.
  rewrite Hbody. split.
  - intros ->. eexists. split; [reflexivity|].
    unfold http_error. cbn [Code Contents WrappedError Message].
    repeat split; destruct (decide _); try reflexivity; contradiction.
  - now intros err ->.
Qed.

(** *** The session controller *)

(** The trace of [Sync]: the new generation [id], a setup that has none of
    the events of the loop, then a trace of the loop of generation [id]. *)
Lemma Sync_trace rfuel fuel st :
  exists id setup nextBatch filterID loop,
    events (Sync rfuel fuel st) = (EvIncrementSyncingID id :: setup) ++ loop /\
    none_of is_loop_event (EvIncrementSyncingID id :: setup) /\
    loop_trace (UserID cli) id filterID nextBatch loop.
Proof.
  unfold Sync.
  destruct (incrementSyncingID_run st) as [id [st1 Hinc]].
  rewrite events_bind, Hinc. cbn [result events final].
  rewrite events_bind. unfold Store_LoadNextBatch, call. cbn [result events final].
  set (nextBatch := fst (LoadNextBatch _ _)). set (st2 := Build_St _ _).
  rewrite events_bind. unfold Store_LoadFilterID, call. cbn [result events final].
  set (filterID := fst (LoadFilterID _ _)). set (st3 := Build_St _ _).
  clearbody nextBatch st2 filterID st3.
  destruct (decide (filterID = "")) as [_|_].
  - rewrite events_bind. unfold Syncer_GetFilterJSON, call. cbn [result events final].
    set (filterJSON := fst (GetFilterJSON _ _)). set (st4 := Build_St _ _).
    clearbody filterJSON st4.
    rewrite events_bind.
    destruct (CreateFilter_events rfuel filterJSON st4) as [hs [-> Hhs]].
    set (setup := EvLoadNextBatch (UserID cli)
               :: EvLoadFilterID (UserID cli) :: EvGetFilterJSON (UserID cli)
               :: EvCreateFilter filterJSON :: hs).
    assert (Hsetup : none_of is_loop_event (EvIncrementSyncingID id :: setup)).
    { repeat (constructor; [reflexivity|]).
      eapply all_of_none_of; [|exact Hhs]. apply transport_not_loop_event. }
    destruct (result (CreateFilter _ _ _)) as [[resFilter [err|]]|msg|].
    2: destruct resFilter as [resFilter|].
    2:{ rewrite events_bind. unfold Store_SaveFilterID, call.
        cbn [result events final].
        exists id, (setup ++ [EvSaveFilterID (UserID cli) (FilterID resFilter)]),
          nextBatch, (FilterID resFilter).
        eexists. split; [|split; [|apply sync_loop_trace]].
        - unfold setup. cbn [app]. rewrite <- !app_assoc. reflexivity.
        - rewrite app_comm_cons.
          apply none_of_app; [exact Hsetup|]. repeat constructor. }
    all: exists id, setup, nextBatch, filterID, [];
      (split; [|split; [exact Hsetup|constructor]]);
      unfold setup; cbn [app events]; rewrite !app_nil_r; reflexivity.
  - exists id, [EvLoadNextBatch (UserID cli); EvLoadFilterID (UserID cli)],
      nextBatch, filterID.
    eexists. split; [reflexivity|].
    split; [repeat constructor|apply sync_loop_trace].
Qed.

(** X9.  In a run of [Sync], a cursor is only persisted directly after a read
    of the generation counter that gave the generation of this run. *)
Lemma Sync_persists_only_after_check rfuel fuel st :
  exists id rest,
    events (Sync rfuel fuel st) = EvIncrementSyncingID id :: rest /\
    follows (check_required id) (events (Sync rfuel fuel st)).
Proof.
  destruct (Sync_trace rfuel fuel st)
    as (id & setup & nextBatch & filterID & loop & Heq & Hsetup & Hloop).
  exists id, (setup ++ loop). split; [exact Heq|]. rewrite Heq.
  apply follows_app.
  - apply follows_none. eapply Forall_impl; [exact Hsetup|]. now destruct x.
  - eapply loop_trace_check; eauto.
Qed.

(** C1.  In the trace of [Sync], what comes directly before the dispatch of
    a snapshot ([Syncer.ProcessResponse]) is the persisting of the cursor of
    that very snapshot for the user of the client ([Store.SaveNextBatch]):
    no snapshot is dispatched whose cursor has not been persisted. *)
Theorem Sync_persists_cursor_before_dispatch rfuel fuel st pre r since post :
  events (Sync rfuel fuel st) = pre ++ EvProcessResponse r since :: post ->
  exists pre', pre = pre' ++ [EvSaveNextBatch (UserID cli) (NextBatch r)].
Proof.
  destruct (Sync_trace rfuel fuel st)
    as (id & setup & nextBatch & filterID & loop & Heq & Hsetup & Hloop).
  rewrite Heq. intros Hsplit.
  assert (Hfollows : follows (persist_required (UserID cli))
                       ((EvIncrementSyncingID id :: setup) ++ loop)).
  { apply follows_app.
    - apply follows_none. eapply Forall_impl; [exact Hsetup|]. now destruct x.
    - eapply loop_trace_persist; eauto. }
  eapply Hfollows; [eassumption|reflexivity].
Qed.

(** C4.  When, in the trace of [Sync], a cursor is persisted, its snapshot
    is dispatched, and the loop goes on to its next long-poll, the [since]
    of that long-poll is the cursor that was persisted. *)
Theorem Sync_next_since_is_persisted_cursor rfuel fuel st pre userID t r s
    timeout since filterID fullState setPresence post :
  events (Sync rfuel fuel st) =
    pre ++ EvSaveNextBatch userID t :: EvProcessResponse r s
        :: EvSyncRequest timeout since filterID fullState setPresence :: post ->
  since = t.
Proof.
  destruct (Sync_trace rfuel fuel st)
    as (id & setup & nextBatch & fid & loop & Heq & Hsetup & Hloop).
  rewrite Heq. intros Hsplit.
  change (pre ++ EvSaveNextBatch userID t :: EvProcessResponse r s
              :: EvSyncRequest timeout since filterID fullState setPresence :: post)
    with (pre ++ [EvSaveNextBatch userID t; EvProcessResponse r s]
              ++ EvSyncRequest timeout since filterID fullState setPresence :: post)
    in Hsplit.
  rewrite app_assoc in Hsplit.
  apply (none_of_split is_long_poll) in Hsplit as [pre2 [Hpre Hloop2]];
    [| |reflexivity].
  2:{ eapply none_of_weaken; [|exact Hsetup]. apply not_loop_event_not_long_poll. }
  destruct (loop_trace_since _ _ _ _ _ Hloop _ _ _ _ _ _ _ Hloop2) as [-> _].
  assert (Hcursor : cursor_after nextBatch ((EvIncrementSyncingID id :: setup) ++ pre2)
                    = cursor_after nextBatch pre2).
  { rewrite cursor_after_app. f_equal. apply cursor_after_none.
    eapply none_of_weaken; [|exact Hsetup]. apply not_loop_event_not_persist. }
  rewrite <- Hcursor, <- Hpre, cursor_after_app. reflexivity.
Qed.

(** C2.  An iteration of the loop of generation [id] whose long-poll
    succeeds and whose read of the generation counter gives another value
    makes the loop, and so [Sync], return nil; after the long-poll the
    iteration only reads the counter, so that it neither persists the
    cursor of the snapshot nor dispatches the snapshot. *)
Theorem sync_loop_superseded rfuel fuel id nextBatch filterID st resSync current :
  result (SyncRequest rfuel 30000 nextBatch filterID false "" st)
    = Val (resSync, None) ->
  result (getSyncingID (final (SyncRequest rfuel 30000 nextBatch filterID false "" st)))
    = Val current ->
  current <> id ->
  result (sync_loop rfuel (S fuel) id nextBatch filterID st) = Val None /\
  events (sync_loop rfuel (S fuel) id nextBatch filterID st) =
    events (SyncRequest rfuel 30000 nextBatch filterID false "" st)
      ++ [EvGetSyncingID current] /\
  none_of is_persist (events (sync_loop rfuel (S fuel) id nextBatch filterID st)) /\
  none_of is_dispatch (events (sync_loop rfuel (S fuel) id nextBatch filterID st)).
Proof.
  intros Hpoll Hread Hstale.
  assert (Hrun :
    result (sync_loop rfuel (S fuel) id nextBatch filterID st) = Val None /\
    events (sync_loop rfuel (S fuel) id nextBatch filterID st) =
      events (SyncRequest rfuel 30000 nextBatch filterID false "" st)
        ++ [EvGetSyncingID current]).
  { cbn [sync_loop]. unfold sync_iteration.
    rewrite result_bind, events_bind, result_bind, events_bind, Hpoll.
    rewrite result_bind, events_bind.
    destruct (getSyncingID_run (final (SyncRequest rfuel 30000 nextBatch filterID false "" st)))
      as [current' [st2 Hget]].
    rewrite Hget in Hread |- *. cbn [result events final] in Hread |- *.
    injection Hread as ->.
    destruct (decide (current <> id)) as [_|Hfresh]; [|contradiction].
    cbn. rewrite !app_nil_r. auto. }
  destruct Hrun as [Hres Hev]. repeat split; auto; rewrite Hev.
  - destruct (SyncRequest_events rfuel 30000 nextBatch filterID false "" st)
      as [hs [-> Hhs]].
    apply none_of_app; [|repeat constructor]. constructor; [reflexivity|].
    eapply all_of_none_of; [|exact Hhs]. now destruct e.
  - destruct (SyncRequest_events rfuel 30000 nextBatch filterID false "" st)
      as [hs [-> Hhs]].
    apply none_of_app; [|repeat constructor]. constructor; [reflexivity|].
    eapply all_of_none_of; [|exact Hhs]. now destruct e.
Qed.

(** C8.  When the store holds a filter id for the user, [Sync] goes from
    loading it straight into the loop: it asks the syncer for no filter
    document, creates no filter, writes no filter id, and every long-poll
    carries the stored id. *)
Theorem Sync_stored_filter_skips_negotiation rfuel fuel st id nextBatch w2
    filterID w3 :
  result (incrementSyncingID st) = Val id ->
  LoadNextBatch (UserID cli) (world (final (incrementSyncingID st)))
    = (nextBatch, w2) ->
  LoadFilterID (UserID cli) w2 = (filterID, w3) ->
  filterID <> "" ->
  events (Sync rfuel fuel st) =
    EvIncrementSyncingID id :: EvLoadNextBatch (UserID cli)
      :: EvLoadFilterID (UserID cli)
      :: events (sync_loop rfuel fuel id nextBatch filterID
                   {| syncingID := id; world := w3 |}) /\
  none_of is_filter_negotiation (events (Sync rfuel fuel st)) /\
  (forall pre timeout since f fullState setPresence post,
      events (Sync rfuel fuel st) =
        pre ++ EvSyncRequest timeout since f fullState setPresence :: post ->
      f = filterID).
Proof.
  intros Hinc Hnb Hfid Hne.
  assert (Hev : events (Sync rfuel fuel st) =
    [EvIncrementSyncingID id; EvLoadNextBatch (UserID cli);
     EvLoadFilterID (UserID cli)]
      ++ events (sync_loop rfuel fuel id nextBatch filterID
                   {| syncingID := id; world := w3 |})).
  { unfold Sync.
    destruct (incrementSyncingID_run st) as [id' [st1 Hrun]].
    assert (Hid : syncingID st1 = id').
    { unfold incrementSyncingID in Hrun. now inversion Hrun. }
    rewrite Hrun in Hinc, Hnb. cbn [result final] in Hinc, Hnb.
    injection Hinc as ->.
    rewrite events_bind, Hrun. cbn [result events final].
    rewrite events_bind. unfold Store_LoadNextBatch, call.
    cbn [result events final]. rewrite Hnb. cbn [fst snd].
    rewrite events_bind. unfold Store_LoadFilterID, call.
    cbn [result events final syncingID world]. rewrite Hfid. cbn [fst snd].
    destruct (decide (filterID = "")) as [|_]; [contradiction|].
    rewrite Hid. reflexivity. }
  split; [exact Hev|]. rewrite Hev.
  pose proof (sync_loop_trace rfuel fuel id nextBatch filterID
                {| syncingID := id; world := w3 |}) as Hloop.
  split.
  - apply none_of_app; [repeat constructor|].
    eapply loop_trace_no_negotiation; eauto.
  - intros pre timeout since f fullState setPresence post Hsplit.
    apply (none_of_split is_long_poll) in Hsplit as [pre2 [_ Hloop2]];
      [|repeat constructor|reflexivity].
    eapply loop_trace_since; eauto.
Qed.

(** C5.  When the store holds no filter id for the user, [Sync] asks the
    syncer for a filter document and sends it to [CreateFilter].  If that
    returns an error, [Sync] returns this error and its trace has no
    long-poll.  If it returns a filter, the next event is the writing of
    its id, no long-poll comes before, and the loop follows with that
    id. *)
Theorem Sync_negotiates_missing_filter rfuel fuel st id nextBatch w2 w3
    filterJSON w4 :
  result (incrementSyncingID st) = Val id ->
  LoadNextBatch (UserID cli) (world (final (incrementSyncingID st)))
    = (nextBatch, w2) ->
  LoadFilterID (UserID cli) w2 = ("", w3) ->
  GetFilterJSON (UserID cli) w3 = (filterJSON, w4) ->
  let create := CreateFilter rfuel filterJSON {| syncingID := id; world := w4 |} in
  let negotiation :=
    EvIncrementSyncingID id :: EvLoadNextBatch (UserID cli)
      :: EvLoadFilterID (UserID cli) :: EvGetFilterJSON (UserID cli)
      :: events create in
  (exists hs rest,
      events create = EvCreateFilter filterJSON :: hs /\
      events (Sync rfuel fuel st) = negotiation ++ rest) /\
  none_of is_long_poll negotiation /\
  (forall resFilter err,
      result create = Val (resFilter, Some err) ->
      result (Sync rfuel fuel st) = Val (Some err) /\
      events (Sync rfuel fuel st) = negotiation) /\
  (forall resFilter,
      result create = Val (Some resFilter, None) ->
      events (Sync rfuel fuel st) =
        negotiation ++
        EvSaveFilterID (UserID cli) (FilterID resFilter)
          :: events (sync_loop rfuel fuel id nextBatch (FilterID resFilter)
                       {| syncingID := id;
                          world := SaveFilterID (UserID cli) (FilterID resFilter)
                                     (world (final create)) |})).
Proof.
  intros Hinc Hnb Hfid Hjson create negotiation.
  destruct (CreateFilter_events rfuel filterJSON {| syncingID := id; world := w4 |})
    as [hs [Hcreate Hhs]]. fold create in Hcreate.
  assert (Hrun :
    result (Sync rfuel fuel st) =
      match result create with
      | Val (resFilter, err) =>
          match err with
          | Some err => Val (Some err)
          | None =>
              match resFilter with
              | Some resFilter =>
                  result (sync_loop rfuel fuel id nextBatch (FilterID resFilter)
                            {| syncingID := id;
                               world := SaveFilterID (UserID cli) (FilterID resFilter)
                                          (world (final create)) |})
              | None => Panic "nil pointer dereference"
              end
          end
      | Panic msg => Panic msg
      | OutOfFuel => OutOfFuel
      end /\
    events (Sync rfuel fuel st) =
      negotiation ++
      match result create with
      | Val (resFilter, err) =>
          match err with
          | Some _ => []
          | None =>
              match resFilter with
              | Some resFilter =>
                  EvSaveFilterID (UserID cli) (FilterID resFilter)
                    :: events (sync_loop rfuel fuel id nextBatch (FilterID resFilter)
                                 {| syncingID := id;
                                    world := SaveFilterID (UserID cli)
                                               (FilterID resFilter)
                                               (world (final create)) |})
              | None => []
              end
          end
      | _ => []
      end).
  { unfold Sync.
    destruct (incrementSyncingID_run st) as [id' [st1 Hst1]].
    assert (Hid : syncingID st1 = id').
    { unfold incrementSyncingID in Hst1. now inversion Hst1. }
    rewrite Hst1 in Hinc, Hnb. cbn [result final] in Hinc, Hnb.
    injection Hinc as ->.
    rewrite result_bind, events_bind, Hst1. cbn [result events final].
    rewrite result_bind, events_bind. unfold Store_LoadNextBatch, call.
    cbn [result events final]. rewrite Hnb. cbn [fst snd].
    rewrite result_bind, events_bind. unfold Store_LoadFilterID, call.
    cbn [result events final syncingID world]. rewrite Hfid. cbn [fst snd].
    destruct (decide ("" = "")) as [_|]; [|contradiction].
    rewrite result_bind, events_bind. unfold Syncer_GetFilterJSON, call.
    cbn [result events final syncingID world]. rewrite Hjson, Hid. cbn [fst snd].
    rewrite result_bind, events_bind. fold create.
    destruct (result create) as [[resFilter [err|]]|msg|].
    2: destruct resFilter as [resFilter|].
    2:{ rewrite result_bind, events_bind. unfold Store_SaveFilterID, call.
        cbn [result events final syncingID world].
        assert (Hkeep : syncingID (final create) = id).
        { apply CreateFilter_keeps_syncingID. }
        rewrite Hkeep. split; reflexivity. }
    all: cbn; rewrite ?app_nil_r; split; reflexivity. }
  destruct Hrun as [Hres Hev].
  repeat split.
  - exists hs. eexists. split; [exact Hcreate|exact Hev].
  - unfold negotiation. do 4 (constructor; [reflexivity|]).
    rewrite Hcreate. constructor; [reflexivity|].
    eapply all_of_none_of; [|exact Hhs]. now destruct e.
  - rewrite Hres, H. reflexivity.
  - rewrite Hev, H. apply app_nil_r.
  - intros resFilter Hok. rewrite Hev, Hok. reflexivity.
Qed.

End Client_facts.

(** ** More of the client *)

Section Pure_facts.

Lemma single_stage_test (stages : list string) (stageName : string) :
  Nat.eqb (length stages) 1 && String.eqb (nth 0 stages "") stageName = true <->
  stages = [stageName].
Proof.
  split.
  - intros Htest. apply andb_prop in Htest as [Hlen Hstage].
    apply Nat.eqb_eq in Hlen. apply String.eqb_eq in Hstage.
    destruct stages as [|s [|s' stages]]; try discriminate.
    simpl in Hstage. now subst.
  - intros ->. simpl. apply String.eqb_refl.
Qed.

(** X19.  [HasSingleStageFlow] holds exactly when one of the flows is the
    single stage asked for: a flow that has this stage among others does not
    count, and neither does an answer without flows. *)
Theorem HasSingleStageFlow_iff (r : RespUserInteractive) (stageName : string) :
  HasSingleStageFlow r stageName = true <->
  exists f, In f (Flows r) /\ Stages f = [stageName].
Proof.
  unfold HasSingleStageFlow. induction (Flows r) as [|f flows IH]; simpl.
  - split; [discriminate|]. now intros [f [[] _]].
  - destruct (Nat.eqb (length (Stages f)) 1
              && String.eqb (nth 0 (Stages f) "") stageName) eqn:Htest.
    + split; [|reflexivity]. intros _. exists f. split; [now left|].
      now apply single_stage_test.
    + rewrite IH. split.
      * intros [g [Hin Hg]]. exists g. auto.
      * intros [g [[<-|Hin] Hg]]; [|now exists g].
        apply single_stage_test in Hg. congruence.
Qed.

Lemma strconv_Itoa_inj (n m : Z) :
  Go.strconv_Itoa n = Go.strconv_Itoa m -> n = m.
Proof.
  unfold Go.strconv_Itoa. intros Heq.
  apply DecimalZ.to_int_inj.
  assert (Hparse : forall z,
    NilZero.int_of_string (NilZero.string_of_int (Z.to_int z)) = Some (Z.to_int z)).
  { intros z. apply NilZero.isi; destruct z; simpl; try discriminate;
      intros [= Hnil]; now apply DecimalPos.Unsigned.to_uint_nonnil in Hnil. }
  pose proof (Hparse n) as Hn. rewrite Heq, Hparse in Hn. now injection Hn.
Qed.

(** The two's complement wrap of an [int64] leaves a number as it is
    exactly when the number fits. *)
Lemma int64_exact (x : Z) :
  Go.int64 x = x <-> Go.minInt64 <= x <= Go.maxInt64.
Proof.
  unfold Go.int64, Go.wrap, Go.minInt64, Go.maxInt64.
  change (2 ^ 64) with 18446744073709551616.
  change (2 ^ 63) with 9223372036854775808.
  change (18446744073709551616 / 2) with 9223372036854775808.
  pose proof (Z.mod_pos_bound x 18446744073709551616 eq_refl) as Hbound.
  destruct (x mod 18446744073709551616 <? 9223372036854775808) eqn:Hlow.
  - apply Z.ltb_lt in Hlow. split.
    + intros Heq. lia.
    + intros Hfit. destruct (Z_lt_le_dec x 0) as [Hneg|Hpos].
      * exfalso.
        assert (Hmod : x mod 18446744073709551616 = x + 18446744073709551616).
        { symmetry. apply (Z.mod_unique _ _ (-1)); lia. }
        lia.
      * apply Z.mod_small. lia.
  - apply Z.ltb_ge in Hlow. split.
    + intros Heq. lia.
    + intros Hfit. destruct (Z_lt_le_dec x 0) as [Hneg|Hpos].
      * assert (Hmod : x mod 18446744073709551616 = x + 18446744073709551616).
        { symmetry. apply (Z.mod_unique _ _ (-1)); lia. }
        lia.
      * exfalso. rewrite Z.mod_small in Hlow; lia.
Qed.

(** X18.  The query of a long-poll: the timeout always; [since], [filter] and
    [set_presence] when they are not empty; [full_state] when asked for; and
    no other key. *)
Theorem sync_query_lookup (timeout : Z) (since filterID : string) (fullState : bool)
    (setPresence : string) :
  sync_query timeout since filterID fullState setPresence !! "timeout"
    = Some (Go.strconv_Itoa timeout) /\
  sync_query timeout since filterID fullState setPresence !! "since"
    = (if decide (since = "") then None else Some since) /\
  sync_query timeout since filterID fullState setPresence !! "filter"
    = (if decide (filterID = "") then None else Some filterID) /\
  sync_query timeout since filterID fullState setPresence !! "full_state"
    = (if fullState then Some "true" else None) /\
  sync_query timeout since filterID fullState setPresence !! "set_presence"
    = (if decide (setPresence = "") then None else Some setPresence) /\
  forall key,
    ~ In key ["timeout"; "since"; "filter"; "full_state"; "set_presence"] ->
    sync_query timeout since filterID fullState setPresence !! key = None.
Proof.
  unfold sync_query.
  repeat split;
    try (intros key Hkey; simpl in Hkey);
    destruct (decide (since = "")), (decide (filterID = "")), fullState,
      (decide (setPresence = ""));
    repeat (rewrite lookup_insert_ne by (try discriminate; intuition congruence));
    rewrite ?lookup_insert_eq, ?lookup_singleton_eq; try reflexivity;
    rewrite ?lookup_singleton_ne by (try discriminate; intuition congruence);
    reflexivity.
Qed.

End Pure_facts.

Section More_facts.

Context {W : Type} `{!Runtime W} `{!Storer W} `{!Syncer W} `{!Uploads W}.
Context `{!JSONEncode RawMessage}.
Context `{!JSONDecode (option RespCreateFilter)} `{!JSONDecode (option RespSync)}.
Context `{!JSONDecode (option RespRegister)} `{!JSONDecode RespMediaUpload}.
Variable time_Parse : string -> string -> option Z.
Variable http_NewRequest : string -> string -> option (list byte) -> Request + GoError.
Variable json_Unmarshal_RespError : list byte -> RespError * option GoError.
Variable json_Unmarshal_UIA : list byte -> option RespUserInteractive * option GoError.
Variable url_join : string -> list string -> string -> string.
Variable url_set_query : string -> gmap string string -> string.
Variable cli : Client.

Local Abbreviation new_request_as c := (new_request http_NewRequest c).
Local Abbreviation MakeRequest_as c :=
  (MakeRequest time_Parse http_NewRequest json_Unmarshal_RespError c).
Local Abbreviation HandleRetry := (HandleRetry time_Parse).
Local Abbreviation new_request := (new_request http_NewRequest cli).
Local Abbreviation MakeRequest :=
  (MakeRequest time_Parse http_NewRequest json_Unmarshal_RespError cli).
Local Abbreviation SyncRequest :=
  (SyncRequest time_Parse http_NewRequest json_Unmarshal_RespError url_join
     url_set_query cli).
Local Abbreviation sync_iteration :=
  (sync_iteration time_Parse http_NewRequest json_Unmarshal_RespError url_join
     url_set_query cli).
Local Abbreviation sync_loop :=
  (sync_loop time_Parse http_NewRequest json_Unmarshal_RespError url_join
     url_set_query cli).
Local Abbreviation Sync :=
  (Sync time_Parse http_NewRequest json_Unmarshal_RespError url_join
     url_set_query cli).
Local Abbreviation CreateFilter :=
  (CreateFilter time_Parse http_NewRequest json_Unmarshal_RespError url_join cli).
Local Abbreviation register :=
  (register time_Parse http_NewRequest json_Unmarshal_RespError json_Unmarshal_UIA cli).
Local Abbreviation upload_request := (upload_request http_NewRequest url_join cli).
Local Abbreviation UploadToContentRepo :=
  (UploadToContentRepo http_NewRequest url_join cli).

Implicit Types st : St W.

(** *** The requests of the transport *)

(** X1.  Whatever the retries, [MakeRequest] sends one request, the one it
    builds from its arguments, again and again: its trace is a round trip and
    a sleep for each retry, and then at most one more round trip. It never
    sleeps but after a round trip. *)
Theorem MakeRequest_resends_same_request {Q R} `{!JSONEncode Q} `{!JSONDecode R}
    fuel method url (reqBody : option Q) (resBody : option R) st req :
  new_request method url reqBody = inl req ->
  exists durs last,
    events (MakeRequest fuel method url reqBody resBody st) =
      flat_map (fun dur => [EvDo req; EvSleep dur]) durs ++ last /\
    (last = [] \/ last = [EvDo req]).
Proof.
  intros Hreq. revert st.
  induction fuel as [|fuel IH]; intros st; cbn [MakeRequest].
  - exists [], []. auto.
  - rewrite Hreq. rewrite events_bind. unfold Client_Do, call.
    cbn [result events final].
    destruct (http_Client_Do req (world st)) as [[res err] w1]. cbn [fst snd].
    destruct err as [err|]; [exists [], [EvDo req]; auto|].
    destruct res as [res|]; [|exists [], [EvDo req]; auto].
    destruct (decide (StatusCode res = 429)) as [_|_].
    + rewrite events_bind. unfold Now. cbn [result events final world].
      destruct (HandleRetry res sleep (time_Now w1)) as [dur [err|]];
        [exists [], [EvDo req]; auto|].
      rewrite events_bind. unfold Sleep, call. cbn [result events final].
      rewrite events_bind.
      match goal with
      | |- context [events (MakeRequest fuel method url reqBody resBody ?st')] =>
          destruct (IH st') as (durs & last & Hev & Hlast); rewrite Hev
      end.
      exists (dur :: durs), last. split; [|exact Hlast].
      destruct (result _) as [[resBody' err']|msg|];
        rewrite ?decode_response_events, ?app_nil_r; reflexivity.
    + destruct (decide (Z.quot (StatusCode res) 100 <> 2)) as [_|_].
      * exists [], [EvDo req]. split; [|auto].
        destruct (Body res) as [body|]; [|reflexivity].
        unfold ioutil_ReadAll. now destruct (body_err body).
      * exists [], [EvDo req]. split; [|auto].
        now rewrite decode_response_events.
Qed.

(** What holds of the request of a client holds of every request that
    client's [MakeRequest] sends. *)
Lemma MakeRequest_sent {Q R} `{!JSONEncode Q} `{!JSONDecode R} (P : Request -> Prop)
    c fuel method url (reqBody : option Q) (resBody : option R) st :
  (forall req, new_request_as c method url reqBody = inl req -> P req) ->
  Forall (fun e => match e with EvDo req => P req | _ => True end)
         (events (MakeRequest_as c fuel method url reqBody resBody st)).
Proof.
  intros Hbuilt. revert st resBody.
  induction fuel as [|fuel IH]; intros st resBody; cbn [MakeRequest].
  - constructor.
  - destruct (new_request_as c method url reqBody) as [req|err] eqn:Hreq;
      [|constructor].
    apply events_bind_closed;
      [constructor | apply Forall_app_2 | repeat constructor; auto |].
    intros [res err] st1.
    destruct err as [err|]; [constructor|].
    destruct res as [res|]; [|constructor].
    destruct (decide _).
    + apply events_bind_closed; [constructor | apply Forall_app_2 | constructor |].
      intros now st2. destruct (HandleRetry _ _ _) as [dur [herr|]]; [constructor|].
      apply events_bind_closed;
        [constructor | apply Forall_app_2 | repeat constructor |].
      intros _ st3.
      apply events_bind_closed; [constructor | apply Forall_app_2 | apply IH |].
      intros [rb' e'] st4. rewrite decode_response_events. constructor.
    + destruct (decide _).
      * destruct (Body res); [|constructor].
        destruct (ioutil_ReadAll _) as [contents [rerr|]]; constructor.
      * rewrite decode_response_events. constructor.
Qed.

Lemma new_request_NewRequest {Q} `{!JSONEncode Q} c method url (reqBody : option Q) req :
  new_request_as c method url reqBody = inl req ->
  exists body req0,
    http_NewRequest method url body = inl req0 /\
    req =
      (let typed := Request_set_header req0 "Content-Type" "application/json" in
       if decide (AccessToken c = "") then typed
       else Request_set_header typed "Authorization" ("Bearer " +:+ AccessToken c)).
Proof.
  unfold new_request. intros Hreq.
  destruct reqBody as [q|].
  - destruct (json_Encode q) as [buf|err]; [|discriminate].
    destruct (http_NewRequest method url (Some buf)) as [req0|err] eqn:Hnew;
      [|discriminate].
    exists (Some buf), req0. split; [exact Hnew|]. now injection Hreq as <-.
  - destruct (http_NewRequest method url None) as [req0|err] eqn:Hnew;
      [|discriminate].
    exists None, req0. split; [exact Hnew|]. now injection Hreq as <-.
Qed.

(** X2.  Every request [MakeRequest] sends, the retries too, says that its
    content is JSON and, when the client has an access token, carries it as a
    bearer token. *)
Theorem MakeRequest_requests_carry_headers {Q R} `{!JSONEncode Q} `{!JSONDecode R}
    fuel method url (reqBody : option Q) (resBody : option R) st :
  Forall (fun e =>
            match e with
            | EvDo req =>
                Header_Get (ReqHeader req) "Content-Type" = "application/json" /\
                (AccessToken cli <> "" ->
                 Header_Get (ReqHeader req) "Authorization"
                   = "Bearer " +:+ AccessToken cli)
            | _ => True
            end)
         (events (MakeRequest fuel method url reqBody resBody st)).
Proof.
  apply MakeRequest_sent. intros req Hreq.
  apply new_request_NewRequest in Hreq as (body & req0 & _ & ->).
  cbn zeta. destruct (decide (AccessToken cli = "")) as [Hnone|Hsome].
  - split; [|contradiction]. unfold Header_Get, Request_set_header, Header_Set.
    cbn [ReqHeader]. now rewrite lookup_insert_eq.
  - unfold Header_Get, Request_set_header, Header_Set. cbn [ReqHeader]. split.
    + rewrite lookup_insert_ne by discriminate. now rewrite lookup_insert_eq.
    + intros _. now rewrite lookup_insert_eq.
Qed.

(** X3.  After [ClearCredentials], no request [MakeRequest] sends has an
    [Authorization] header, given that [http.NewRequest] sets none. *)
Theorem MakeRequest_cleared_credentials_no_bearer {Q R} `{!JSONEncode Q} `{!JSONDecode R}
    fuel method url (reqBody : option Q) (resBody : option R) st :
  (forall m u body req0,
      http_NewRequest m u body = inl req0 ->
      ReqHeader req0 !! "Authorization" = None) ->
  Forall (fun e =>
            match e with
            | EvDo req => ReqHeader req !! "Authorization" = None
            | _ => True
            end)
         (events (MakeRequest_as (ClearCredentials cli) fuel method url reqBody
                    resBody st)).
Proof.
  intros Hplain. apply MakeRequest_sent. intros req Hreq.
  apply new_request_NewRequest in Hreq as (body & req0 & Hnew & ->).
  cbn zeta. destruct (decide (AccessToken (ClearCredentials cli) = "")) as [_|Hset];
    [|now destruct Hset].
  unfold Request_set_header, Header_Set. cbn [ReqHeader].
  rewrite lookup_insert_ne by discriminate. eauto.
Qed.

Lemma status_2xx (code : Z) :
  200 <= code <= 299 -> code <> 429 /\ Z.quot code 100 = 2.
Proof.
  intros Hrange. split; [lia|].
  rewrite Z.quot_div_nonneg by lia.
  symmetry. apply (Z.div_unique code 100 2 (code - 200)); lia.
Qed.

(** X4.  A status from 200 to 299 is a success: one round trip, no sleep, and
    what decoding the body into the result object gives; with no result
    object, nil whatever the body is. *)
Theorem MakeRequest_2xx {Q R} `{!JSONEncode Q} `{!JSONDecode R}
    fuel method url (reqBody : option Q) (resBody : option R) st req res w1 :
  new_request method url reqBody = inl req ->
  http_Client_Do req (world st) = (Some res, None, w1) ->
  200 <= StatusCode res <= 299 ->
  events (MakeRequest (S fuel) method url reqBody resBody st) = [EvDo req] /\
  result (MakeRequest (S fuel) method url reqBody resBody st) =
    Val (match resBody, Body res with
         | Some r, Some body =>
             (Some (fst (json_Decode body r)), snd (json_Decode body r))
         | _, _ => (resBody, None)
         end).
Proof.
  intros Hreq Hdo Hrange. apply status_2xx in Hrange as [Hcode Hclass].
  cbn [MakeRequest]. rewrite Hreq.
  rewrite events_bind, result_bind. unfold Client_Do, call.
  cbn [result events final]. rewrite Hdo. cbn [fst snd].
  destruct (decide (StatusCode res = 429)) as [|_]; [contradiction|].
  destruct (decide (Z.quot (StatusCode res) 100 <> 2)) as [|_]; [contradiction|].
  rewrite decode_response_events. split; [reflexivity|].
  unfold decode_response.
  destruct resBody as [r|], (Body res) as [body|]; try reflexivity.
  now destruct (json_Decode body r).
Qed.

(** X5.  An error of the round trip itself is returned as it is after that one
    round trip, also when a response came with it, a 429 included: such an
    error is never retried. *)
Theorem MakeRequest_transport_error {Q R} `{!JSONEncode Q} `{!JSONDecode R}
    fuel method url (reqBody : option Q) (resBody : option R) st req res err w1 :
  new_request method url reqBody = inl req ->
  http_Client_Do req (world st) = (res, Some err, w1) ->
  events (MakeRequest (S fuel) method url reqBody resBody st) = [EvDo req] /\
  result (MakeRequest (S fuel) method url reqBody resBody st)
    = Val (resBody, Some err).
Proof.
  intros Hreq Hdo. cbn [MakeRequest]. rewrite Hreq.
  rewrite events_bind, result_bind. unfold Client_Do, call.
  cbn [result events final]. rewrite Hdo. split; reflexivity.
Qed.

(** X6.  When the request body cannot be encoded, or [http.NewRequest] refuses
    the method or the URL, [MakeRequest] returns that error and sends nothing. *)
Theorem MakeRequest_build_failure {Q R} `{!JSONEncode Q} `{!JSONDecode R}
    fuel method url (reqBody : option Q) (resBody : option R) st err :
  match reqBody with
  | Some q =>
      json_Encode q = inr err \/
      exists buf, json_Encode q = inl buf /\
                  http_NewRequest method url (Some buf) = inr err
  | None => http_NewRequest method url None = inr err
  end ->
  events (MakeRequest (S fuel) method url reqBody resBody st) = [] /\
  result (MakeRequest (S fuel) method url reqBody resBody st)
    = Val (resBody, Some err).
Proof.
  intros Hfail.
  assert (Hreq : new_request method url reqBody = inr err).
  { unfold new_request. destruct reqBody as [q|].
    - destruct Hfail as [->|[buf [-> ->]]]; reflexivity.
    - now rewrite Hfail. }
  cbn [MakeRequest]. rewrite Hreq. split; reflexivity.
Qed.

(** X7.  With a [Retry-After] of [seconds], the backoff is that many seconds
    exactly when [seconds] is at most 9223372036 in absolute value: beyond,
    the multiplication by [time.Second] wraps around. *)
Theorem HandleRetry_seconds_exact (res : Response) (duration now seconds : Z) :
  Header_Get (Header res) "Retry-After" <> "" ->
  time_Parse Go.http_TimeFormat (Header_Get (Header res) "Retry-After") = None ->
  Go.strconv_Atoi (Header_Get (Header res) "Retry-After") = Some seconds ->
  snd (HandleRetry res duration now) = None /\
  (fst (HandleRetry res duration now) = seconds * Go.Second <->
   -9223372036 <= seconds <= 9223372036).
Proof.
  intros Hpresent Hdate Hint. unfold HandleRetry.
  destruct (decide _) as [|_]; [contradiction|]. rewrite Hdate, Hint.
  cbn [fst snd]. split; [reflexivity|].
  rewrite int64_exact. unfold Go.minInt64, Go.maxInt64, Go.Second.
  change (2 ^ 63) with 9223372036854775808. lia.
Qed.

(** *** The generation counter *)

(** X8.  A read of the generation counter gives the generation a loop captured
    exactly when the number of increments by the other goroutines since is a
    multiple of 2^32: one [StopSync] is always seen, 2^32 of them are not. An
    increment never gives the value the counter had unless the others made
    2^32 - 1 increments, modulo 2^32, meanwhile. *)
Theorem generation_counter_modulo st :
  0 <= syncingID st < 2 ^ 32 ->
  (result (getSyncingID st) = Val (syncingID st) <->
   Z.of_nat (fst (other_goroutines (world st))) mod 2 ^ 32 = 0) /\
  (result (incrementSyncingID st) = Val (syncingID st) <->
   (Z.of_nat (fst (other_goroutines (world st))) + 1) mod 2 ^ 32 = 0).
Proof.
  intros Hrange. unfold getSyncingID, incrementSyncingID, Go.uint32.
  cbn [result].
  set (k := Z.of_nat (fst (other_goroutines (world st)))).
  assert (Hk : 0 <= k) by (unfold k; lia).
  change (2 ^ 32) with 4294967296 in *.
  assert (Hshift : forall n, 0 <= n ->
    ((syncingID st + n) mod 4294967296 = syncingID st <-> n mod 4294967296 = 0)).
  { intros n Hn.
    pose proof (Z.mod_pos_bound n 4294967296 eq_refl) as Hbound.
    rewrite <- (Z.add_mod_idemp_r (syncingID st) n) by lia.
    split.
    - intros Heq.
      destruct (Z_lt_le_dec (syncingID st + n mod 4294967296) 4294967296)
        as [Hsmall|Hbig].
      + rewrite Z.mod_small in Heq by lia. lia.
      + assert (Hmod : (syncingID st + n mod 4294967296) mod 4294967296
                       = syncingID st + n mod 4294967296 - 4294967296).
        { symmetry. apply (Z.mod_unique _ _ 1); lia. }
        lia.
    - intros ->. rewrite Z.add_0_r. apply Z.mod_small. lia. }
  split.
  - rewrite <- (Hshift k Hk). split; [now intros [= ->]|now intros ->].
  - rewrite Z.add_mod_idemp_l by lia. rewrite <- Z.add_assoc.
    rewrite <- (Hshift (k + 1)) by lia.
    split; [now intros [= ->]|now intros ->].
Qed.

(** *** More of the session controller *)

Lemma loop_trace_Forall (P : Event -> Prop) userID id filterID nextBatch evs :
  (forall nb, P (EvSyncRequest 30000 nb filterID false "")) ->
  (forall e, is_transport e = true -> P e) ->
  (forall nb tail res, iteration_ends userID id nb tail res -> Forall P tail) ->
  loop_trace userID id filterID nextBatch evs ->
  Forall P evs.
Proof.
  intros Hpoll Htransport Htails.
  induction 1 as [nb|nb hs tail res Hhs Htail|nb nb' hs tail rest Hhs Htail _ IH].
  - constructor.
  - constructor; [apply Hpoll|]. apply Forall_app_2; eauto.
    eapply Forall_impl; eauto.
  - constructor; [apply Hpoll|]. repeat apply Forall_app_2; eauto.
    eapply Forall_impl; eauto.
Qed.

Lemma negotiation_trace_Forall (P : Event -> Prop) userID evs :
  P (EvGetFilterJSON userID) ->
  (forall filter, P (EvCreateFilter filter)) ->
  (forall filterID, P (EvSaveFilterID userID filterID)) ->
  (forall e, is_transport e = true -> P e) ->
  negotiation_trace userID evs ->
  Forall P evs.
Proof.
  intros Hdoc Hcreate Hsave Htransport.
  destruct 1 as [|filter hs Hhs|filter hs filterID Hhs].
  - constructor.
  - repeat (constructor; auto). eapply Forall_impl; eauto.
  - repeat (constructor; auto). apply Forall_app_2; [|repeat constructor; auto].
    eapply Forall_impl; eauto.
Qed.

(** The trace of [Sync] in full: the new generation, the two loads, the
    negotiation of the filter, the loop. *)
Lemma Sync_shape rfuel fuel st :
  exists id nextBatch filterID negotiation loop,
    events (Sync rfuel fuel st) =
      EvIncrementSyncingID id :: EvLoadNextBatch (UserID cli)
        :: EvLoadFilterID (UserID cli) :: negotiation ++ loop /\
    negotiation_trace (UserID cli) negotiation /\
    loop_trace (UserID cli) id filterID nextBatch loop.
Proof.
  unfold Sync.
  destruct (incrementSyncingID_run st) as [id [st1 Hinc]].
  rewrite events_bind, Hinc. cbn [result events final].
  rewrite events_bind. unfold Store_LoadNextBatch, call. cbn [result events final].
  set (nextBatch := fst (LoadNextBatch _ _)). set (st2 := Build_St _ _).
  rewrite events_bind. unfold Store_LoadFilterID, call. cbn [result events final].
  set (filterID := fst (LoadFilterID _ _)). set (st3 := Build_St _ _).
  clearbody nextBatch st2 filterID st3.
  destruct (decide (filterID = "")) as [_|_].
  - rewrite events_bind. unfold Syncer_GetFilterJSON, call. cbn [result events final].
    set (filterJSON := fst (GetFilterJSON _ _)). set (st4 := Build_St _ _).
    clearbody filterJSON st4.
    rewrite events_bind.
    destruct (CreateFilter_events time_Parse http_NewRequest json_Unmarshal_RespError
                url_join cli rfuel filterJSON st4) as [hs [-> Hhs]].
    destruct (result (CreateFilter _ _ _)) as [[resFilter [err|]]|msg|].
    2: destruct resFilter as [resFilter|].
    2:{ rewrite events_bind. unfold Store_SaveFilterID, call.
        cbn [result events final].
        exists id, nextBatch, (FilterID resFilter),
          (EvGetFilterJSON (UserID cli) :: EvCreateFilter filterJSON :: hs
             ++ [EvSaveFilterID (UserID cli) (FilterID resFilter)]).
        eexists. split; [|split; [now constructor|apply sync_loop_trace]].
        cbn [app]. rewrite <- !app_assoc. reflexivity. }
    all: exists id, nextBatch, filterID,
           (EvGetFilterJSON (UserID cli) :: EvCreateFilter filterJSON :: hs), [];
      (split; [|split; [now constructor|constructor]]);
      cbn [app events]; rewrite !app_nil_r; reflexivity.
  - exists id, nextBatch, filterID, [].
    eexists. split; [reflexivity|].
    split; [constructor|apply sync_loop_trace].
Qed.

(** X10.  [Sync] takes a new generation and reads the cursor and the filter id
    from the store once, first of all; it never does any of the three again,
    so that what another writer stores while the loop runs is not seen. *)
Theorem Sync_starts_once rfuel fuel st :
  exists id rest,
    events (Sync rfuel fuel st) =
      EvIncrementSyncingID id :: EvLoadNextBatch (UserID cli)
        :: EvLoadFilterID (UserID cli) :: rest /\
    none_of is_start_event rest.
Proof.
  destruct (Sync_shape rfuel fuel st)
    as (id & nextBatch & filterID & negotiation & loop & Hev & Hneg & Hloop).
  exists id, (negotiation ++ loop). split; [exact Hev|].
  apply none_of_app.
  - eapply negotiation_trace_Forall; eauto; try reflexivity. now destruct e.
  - eapply loop_trace_Forall; eauto; try reflexivity.
    + now destruct e.
    + intros nb tail res Htail. destruct Htail; repeat constructor.
Qed.

(** X11.  Every call of [Sync] on the store, and the one for the filter
    document, names the user of the client. *)
Theorem Sync_store_user rfuel fuel st :
  Forall (fun e => forall userID, event_user e = Some userID -> userID = UserID cli)
         (events (Sync rfuel fuel st)).
Proof.
  destruct (Sync_shape rfuel fuel st)
    as (id & nextBatch & filterID & negotiation & loop & -> & Hneg & Hloop).
  constructor; [discriminate|].
  constructor; [now intros userID [= <-]|].
  constructor; [now intros userID [= <-]|].
  apply Forall_app_2.
  - eapply negotiation_trace_Forall; eauto; try discriminate;
      try (now intros userID [= <-]); try (now intros ? userID [= <-]).
    now destruct e.
  - eapply loop_trace_Forall; eauto; try discriminate.
    + now destruct e.
    + intros nb tail res Htail.
      destruct Htail; repeat constructor; try discriminate;
        now intros userID [= <-].
Qed.

(** X12.  All the long-polls of one run of [Sync] have the same filter id,
    wait 30 seconds, never ask for the full state and never set a presence. *)
Theorem Sync_long_poll_parameters rfuel fuel st :
  exists filterID, Forall (long_poll_of filterID) (events (Sync rfuel fuel st)).
Proof.
  destruct (Sync_shape rfuel fuel st)
    as (id & nextBatch & filterID & negotiation & loop & -> & Hneg & Hloop).
  exists filterID. repeat (constructor; [exact I|]).
  apply Forall_app_2.
  - eapply negotiation_trace_Forall; eauto; try exact I; try (intros; exact I).
    now destruct e.
  - eapply loop_trace_Forall; eauto.
    + intros nb. now repeat split.
    + now destruct e.
    + intros nb tail res Htail. destruct Htail; repeat constructor.
Qed.

(** X13.  After a failed long-poll and the backoff the recovery hook asked
    for, the next long-poll has the same cursor. *)
Theorem Sync_retries_same_cursor rfuel fuel st pre timeout1 since1 filter1
    fullState1 setPresence1 hs resSync err d timeout2 since2 filter2 fullState2
    setPresence2 post :
  events (Sync rfuel fuel st) =
    pre ++ EvSyncRequest timeout1 since1 filter1 fullState1 setPresence1
        :: hs ++ EvOnFailedSync resSync err :: EvSleep d
        :: EvSyncRequest timeout2 since2 filter2 fullState2 setPresence2 :: post ->
  all_of is_transport hs ->
  since2 = since1.
Proof.
  destruct (Sync_trace time_Parse http_NewRequest json_Unmarshal_RespError url_join
              url_set_query cli rfuel fuel st)
    as (id & setup & nextBatch & fid & loop & -> & Hsetup & Hloop).
  intros Hsplit Hhs.
  apply (none_of_split is_long_poll) in Hsplit as [pre2 [_ Hloop1]];
    [| |reflexivity].
  2:{ eapply none_of_weaken; [|exact Hsetup]. apply not_loop_event_not_long_poll. }
  destruct (loop_trace_since _ _ _ _ _ Hloop _ _ _ _ _ _ _ Hloop1) as [-> _].
  assert (Hloop2 : loop =
    (pre2 ++ EvSyncRequest timeout1 (cursor_after nextBatch pre2) filter1 fullState1
                setPresence1 :: hs ++ [EvOnFailedSync resSync err; EvSleep d])
      ++ EvSyncRequest timeout2 since2 filter2 fullState2 setPresence2 :: post).
  { rewrite Hloop1, <- !app_assoc. cbn [app]. rewrite <- !app_assoc. reflexivity. }
  destruct (loop_trace_since _ _ _ _ _ Hloop _ _ _ _ _ _ _ Hloop2) as [-> _].
  rewrite cursor_after_app. apply cursor_after_none.
  constructor; [reflexivity|]. apply none_of_app; [|repeat constructor].
  eapply all_of_none_of; [|exact Hhs]. now destruct e.
Qed.

Lemma last_since_app start a b :
  last_since start (a ++ b) = last_since (last_since start a) b.
Proof. apply fold_left_app. Qed.

Lemma last_since_none start evs :
  none_of is_long_poll evs -> last_since start evs = start.
Proof.
  intros Hnone. revert start.
  induction Hnone as [|e evs He _ IH]; intros start; [reflexivity|].
  simpl. destruct e; try discriminate; apply IH.
Qed.

Lemma iteration_ends_dispatch userID id nextBatch tail res pre r since post :
  iteration_ends userID id nextBatch tail res ->
  tail = pre ++ EvProcessResponse r since :: post ->
  since = nextBatch /\ none_of is_long_poll pre.
Proof.
  destruct 1; intros Heq;
    do 4 (try destruct pre as [|? pre]); simpl in Heq;
    inversion Heq; subst; split; repeat constructor.
Qed.

Lemma loop_trace_dispatch_since userID id filterID nextBatch evs :
  loop_trace userID id filterID nextBatch evs ->
  forall start pre r since post,
    evs = pre ++ EvProcessResponse r since :: post ->
    last_since start pre = Some since.
Proof.
  assert (Hiteration : forall nb hs tail res start pre1 r since post,
    all_of is_transport hs ->
    iteration_ends userID id nb tail res ->
    hs ++ tail = pre1 ++ EvProcessResponse r since :: post ->
    last_since start (EvSyncRequest 30000 nb filterID false "" :: pre1) = Some since).
  { intros nb hs tail res start pre1 r since post Hhs Htail Heq.
    apply (none_of_split is_dispatch) in Heq as [pre2 [-> Heq]]; [| |reflexivity].
    2:{ eapply all_of_none_of; [|exact Hhs]. now destruct e. }
    destruct (iteration_ends_dispatch _ _ _ _ _ _ _ _ _ Htail Heq) as [-> Hquiet].
    cbn [last_since fold_left]. apply last_since_none.
    apply none_of_app; [|exact Hquiet].
    eapply all_of_none_of; [|exact Hhs]. now destruct e. }
  induction 1 as [nb|nb hs tail res Hhs Htail|nb nb' hs tail rest Hhs Htail _ IH];
    intros start pre r since post Heq.
  - now destruct pre.
  - apply cons_eq_split in Heq as [[_ [Hhead _]]|[pre1 [-> Hrest]]];
      [discriminate|]. eauto.
  - apply cons_eq_split in Heq as [[_ [Hhead _]]|[pre1 [-> Hrest]]];
      [discriminate|].
    rewrite app_assoc in Hrest.
    apply app_eq_split in Hrest as [[post1 [Hin _]]|[pre3 [-> Hin]]]; [eauto|].
    rewrite app_comm_cons, last_since_app. eauto.
Qed.

(** X14.  The cursor [Sync] hands to [ProcessResponse] as [since] is the one
    the long-poll that fetched the snapshot was sent with. *)
Theorem Sync_dispatch_since rfuel fuel st pre r since post :
  events (Sync rfuel fuel st) = pre ++ EvProcessResponse r since :: post ->
  last_since None pre = Some since.
Proof.
  destruct (Sync_trace time_Parse http_NewRequest json_Unmarshal_RespError url_join
              url_set_query cli rfuel fuel st)
    as (id & setup & nextBatch & fid & loop & -> & Hsetup & Hloop).
  intros Hsplit.
  apply (none_of_split is_dispatch) in Hsplit as [pre2 [-> Hloop1]];
    [| |reflexivity].
  2:{ eapply none_of_weaken; [|exact Hsetup]. apply not_loop_event_not_dispatch. }
  rewrite last_since_app. eapply loop_trace_dispatch_since; eauto.
Qed.

(** X15.  When the long-poll fails and the recovery hook returns an error, the
    loop returns the error of the hook, not that of the long-poll, without
    sleeping and without another long-poll. *)
Theorem sync_loop_hook_error rfuel fuel id nextBatch filterID st resSync err d err2 w' :
  result (SyncRequest rfuel 30000 nextBatch filterID false "" st)
    = Val (resSync, Some err) ->
  OnFailedSync resSync err
    (world (final (SyncRequest rfuel 30000 nextBatch filterID false "" st)))
    = (d, Some err2, w') ->
  result (sync_loop rfuel (S fuel) id nextBatch filterID st) = Val (Some err2) /\
  events (sync_loop rfuel (S fuel) id nextBatch filterID st) =
    events (SyncRequest rfuel 30000 nextBatch filterID false "" st)
      ++ [EvOnFailedSync resSync err].
Proof.
  intros Hpoll Hhook.
  cbn [sync_loop]. unfold sync_iteration.
  rewrite result_bind, events_bind, result_bind, events_bind, Hpoll.
  rewrite result_bind, events_bind. unfold Syncer_OnFailedSync, call.
  cbn [result events final]. rewrite Hhook. cbn.
  rewrite !app_nil_r. auto.
Qed.

(** X16.  When [ProcessResponse] returns an error the loop returns it, and by
    then the cursor of the snapshot is persisted: in the trace the store was
    written before the dispatch, and nothing undoes it. *)
Theorem sync_loop_dispatch_error rfuel fuel id nextBatch filterID st r err w' :
  result (SyncRequest rfuel 30000 nextBatch filterID false "" st)
    = Val (Some r, None) ->
  result (getSyncingID (final (SyncRequest rfuel 30000 nextBatch filterID false "" st)))
    = Val id ->
  ProcessResponse r nextBatch
    (SaveNextBatch (UserID cli) (NextBatch r)
       (world (final (getSyncingID
                        (final (SyncRequest rfuel 30000 nextBatch filterID false "" st))))))
    = (Some err, w') ->
  result (sync_loop rfuel (S fuel) id nextBatch filterID st) = Val (Some err) /\
  events (sync_loop rfuel (S fuel) id nextBatch filterID st) =
    events (SyncRequest rfuel 30000 nextBatch filterID false "" st)
      ++ [EvGetSyncingID id; EvSaveNextBatch (UserID cli) (NextBatch r);
          EvProcessResponse r nextBatch] /\
  world (final (sync_loop rfuel (S fuel) id nextBatch filterID st)) = w'.
Proof.
  intros Hpoll Hread Hdispatch.
  destruct (getSyncingID_run
              (final (SyncRequest rfuel 30000 nextBatch filterID false "" st)))
    as [current [st2 Hget]].
  rewrite Hget in Hread, Hdispatch.
  cbn [result events final] in Hread, Hdispatch. injection Hread as ->.
  cbn [sync_loop]. unfold sync_iteration.
  repeat (progress (rewrite ?result_bind, ?events_bind, ?final_bind, ?Hpoll, ?Hget;
                    cbn [result events final])).
  destruct (decide (id <> id)) as [Hne|_]; [now destruct Hne|].
  unfold Store_SaveNextBatch, Syncer_ProcessResponse, call.
  repeat (progress (rewrite ?result_bind, ?events_bind, ?final_bind, ?Hdispatch;
                    cbn [result events final world fst snd])).
  cbn. rewrite ?app_nil_r. auto.
Qed.

(** X17.  A long-poll that returns neither an error nor a snapshot (a nil
    [*RespSync]) makes the loop of the current generation panic on
    [resSync.NextBatch], before anything is persisted or dispatched. *)
Theorem sync_loop_nil_snapshot rfuel fuel id nextBatch filterID st :
  result (SyncRequest rfuel 30000 nextBatch filterID false "" st)
    = Val (None, None) ->
  result (getSyncingID (final (SyncRequest rfuel 30000 nextBatch filterID false "" st)))
    = Val id ->
  result (sync_loop rfuel (S fuel) id nextBatch filterID st)
    = Panic "nil pointer dereference" /\
  events (sync_loop rfuel (S fuel) id nextBatch filterID st) =
    events (SyncRequest rfuel 30000 nextBatch filterID false "" st)
      ++ [EvGetSyncingID id].
Proof.
  intros Hpoll Hread.
  destruct (getSyncingID_run
              (final (SyncRequest rfuel 30000 nextBatch filterID false "" st)))
    as [current [st2 Hget]].
  rewrite Hget in Hread. cbn [result] in Hread. injection Hread as ->.
  cbn [sync_loop]. unfold sync_iteration.
  repeat (progress (rewrite ?result_bind, ?events_bind, ?final_bind, ?Hpoll, ?Hget;
                    cbn [result events final])).
  destruct (decide (id <> id)) as [Hne|_]; [now destruct Hne|].
  cbn. rewrite ?app_nil_r. auto.
Qed.

(** *** Transaction ids, registration and uploads *)

(** X20.  Two transaction ids are the same exactly when they were made at the
    same reading of the clock, in nanoseconds. *)
Theorem txnID_same_clock st1 st2 :
  result (txnID st1) = result (txnID st2) <->
  time_Now (world st1) = time_Now (world st2).
Proof.
  unfold txnID. rewrite !result_bind. unfold Now, txnID_at. cbn.
  split.
  - intros [= Heq]. now apply strconv_Itoa_inj.
  - now intros ->.
Qed.

(** X21.  A 401 whose body is read makes [register] return what unmarshalling
    that body as a user-interactive answer gives, error included: when the
    body parses, the HTTP error is dropped and the error returned is nil. *)
Theorem register_401 {Q} `{!JSONEncode Q} fuel u (req : Q) st httpReq res w1 body :
  new_request "POST" u (Some req) = inl httpReq ->
  http_Client_Do httpReq (world st) = (Some res, None, w1) ->
  StatusCode res = 401 ->
  Body res = Some body ->
  body_err body = None ->
  result (register (S fuel) u req st) =
    Val (None, fst (json_Unmarshal_UIA (body_bytes body)),
         snd (json_Unmarshal_UIA (body_bytes body))).
Proof.
  intros Hreq Hdo Hcode Hbody Hread. unfold register.
  rewrite result_bind.
  rewrite (MakeRequest_other time_Parse http_NewRequest json_Unmarshal_RespError cli
             fuel "POST" u (Some req) (Some None) st httpReq res w1 Hreq Hdo);
    [|rewrite Hcode; discriminate|rewrite Hcode; discriminate].
  rewrite Hbody, Hread. cbn [default]. unfold http_error. cbn [Code Contents].
  destruct (decide (StatusCode res = 401)) as [_|]; [|contradiction].
  now destruct (json_Unmarshal_UIA (body_bytes body)).
Qed.

(** X22.  Any other status that is an error, with a body that is read, leaves
    [register] with the [HTTPError] of [MakeRequest] and no user-interactive
    answer. *)
Theorem register_other_status {Q} `{!JSONEncode Q} fuel u (req : Q) st httpReq res w1
    body :
  new_request "POST" u (Some req) = inl httpReq ->
  http_Client_Do httpReq (world st) = (Some res, None, w1) ->
  StatusCode res <> 401 ->
  StatusCode res <> 429 ->
  Z.quot (StatusCode res) 100 <> 2 ->
  Body res = Some body ->
  body_err body = None ->
  result (register (S fuel) u req st) =
    Val (None, None,
         Some (HTTPError_error
                 (http_error json_Unmarshal_RespError "POST" httpReq res
                    (body_bytes body)))).
Proof.
  intros Hreq Hdo Hcode Hlimit Hclass Hbody Hread. unfold register.
  rewrite result_bind.
  rewrite (MakeRequest_other time_Parse http_NewRequest json_Unmarshal_RespError cli
             fuel "POST" u (Some req) (Some None) st httpReq res w1 Hreq Hdo Hlimit
             Hclass).
  rewrite Hbody, Hread. cbn [default]. unfold http_error. cbn [Code Contents].
  destruct (decide (StatusCode res = 401)) as [|_]; [contradiction|]. reflexivity.
Qed.

(** X23.  For an upload every status but 200 is an error, the others from 201
    to 299 and 429 included: after its one round trip, and never a sleep,
    [UploadToContentRepo] returns an [HTTPError] with the status that wraps
    nothing; it has the body and its text when the body is read, and no body
    but the text of the read error when it is not. *)
Theorem UploadToContentRepo_not_200 content contentType contentLength st req res w1
    body :
  upload_request contentType = inl req ->
  http_Client_Do_reader req content contentLength (world st) = (Some res, None, w1) ->
  StatusCode res <> 200 ->
  Body res = Some body ->
  events (UploadToContentRepo content contentType contentLength st) = [EvDo req] /\
  (body_err body = None ->
   result (UploadToContentRepo content contentType contentLength st) =
     Val (None,
          Some (HTTPError_error
                  {| Contents := body_bytes body;
                     WrappedError := None;
                     Message := "Upload request failed: "
                                  +:+ string_of_list_byte (body_bytes body);
                     Code := StatusCode res |}))) /\
  (forall err,
     body_err body = Some err ->
     result (UploadToContentRepo content contentType contentLength st) =
       Val (None,
            Some (HTTPError_error
                    {| Contents := [];
                       WrappedError := None;
                       Message := "Upload request failed - Failed to read response body: "
                                    +:+ GoError_Error err;
                       Code := StatusCode res |}))).
Proof.
  intros Hreq Hdo Hcode Hbody. unfold UploadToContentRepo.
  rewrite Hreq, events_bind, result_bind. unfold call.
  cbn [result events final]. rewrite Hdo. cbn [fst snd].
  destruct (decide (StatusCode res <> 200)) as [_|]; [|contradiction].
  rewrite Hbody. unfold ioutil_ReadAll.
  split; [now destruct (body_err body)|].
  split; [now intros ->|now intros err ->].
Qed.

(** X24.  The request of an upload has the content type it was given and an
    [Authorization] header made of [Bearer] and the access token, also when
    the client has no token. *)
Theorem UploadToContentRepo_headers content contentType contentLength st :
  Forall (fun e =>
            match e with
            | EvDo req =>
                Header_Get (ReqHeader req) "Content-Type" = contentType /\
                Header_Get (ReqHeader req) "Authorization"
                  = "Bearer " +:+ AccessToken cli
            | _ => True
            end)
         (events (UploadToContentRepo content contentType contentLength st)).
Proof.
  unfold UploadToContentRepo, upload_request.
  destruct (http_NewRequest _ _ _) as [req0|err]; [|constructor].
  rewrite events_bind. unfold call. cbn [result events final].
  apply Forall_app_2.
  - constructor; [|constructor].
    unfold Header_Get, Request_set_header, Header_Set. cbn [ReqHeader]. split.
    + rewrite lookup_insert_ne by discriminate. now rewrite lookup_insert_eq.
    + now rewrite lookup_insert_eq.
  - destruct (http_Client_Do_reader _ _ _ _) as [[res err] w1]. cbn [fst snd].
    destruct err as [err|]; [constructor|].
    destruct res as [res|]; [|constructor].
    destruct (decide _).
    + destruct (Body res) as [body|]; [|constructor].
      destruct (ioutil_ReadAll body) as [contents [err|]]; constructor.
    + destruct (Body res) as [body|]; [|constructor].
      destruct (json_Decode body _) as [m [err|]]; constructor.
Qed.

End More_facts.

(** ** Runs in the scripted world *)

Section Scripted_runs.

Local Existing Instances Fixture.runtime Fixture.store Fixture.syncer
  Fixture.encode_raw Fixture.decode_filter Fixture.decode_sync.

Lemma never_ready_stays_limited w :
  Fixture.out_of_answers w ->
  exists res w1 dur,
    http_Client_Do Fixture.get_sync w = (Some res, None, w1) /\
    StatusCode res = 429 /\
    HandleRetry Fixture.time_Parse res sleep (time_Now w1) = (dur, None) /\
    Fixture.out_of_answers (time_Sleep dur w1).
Proof.
  intros [Hanswers Hfallback].
  exists (Fixture.response 429 [] Fixture.limited), w, 5000000000.
  repeat split; try assumption.
  cbn. rewrite Hanswers, Hfallback. reflexivity.
Qed.

(** C1 at a first start with two snapshots: the first dispatch is the
    twelfth event. *)
Lemma Sync_persists_cursor_before_dispatch_witness :
  exists pre',
    take 11 (events (Fixture.Sync 2 2 Fixture.fresh)) =
      pre' ++ [EvSaveNextBatch "@alice:example.org" "s1"].
Proof.
  apply (Sync_persists_cursor_before_dispatch Fixture.time_Parse
           Fixture.NewRequest Fixture.unmarshal_RespError Fixture.url_join
           Fixture.url_set_query Fixture.alice 2 2 Fixture.fresh
           (take 11 (events (Fixture.Sync 2 2 Fixture.fresh)))
           (Fixture.snapshot "s1") ""
           (drop 12 (events (Fixture.Sync 2 2 Fixture.fresh)))).
  vm_compute. reflexivity.
Defined.

(** C4 at the same start: the second long-poll is the thirteenth event. *)
Lemma Sync_next_since_is_persisted_cursor_witness :
  events (Fixture.Sync 2 2 Fixture.fresh) =
    take 10 (events (Fixture.Sync 2 2 Fixture.fresh))
      ++ EvSaveNextBatch "@alice:example.org" "s1"
      :: EvProcessResponse (Fixture.snapshot "s1") ""
      :: EvSyncRequest 30000 "s1" "f1" false ""
      :: drop 13 (events (Fixture.Sync 2 2 Fixture.fresh)) /\
  "s1" = "s1".
Proof.
  assert (Hsplit :
    events (Fixture.Sync 2 2 Fixture.fresh) =
      take 10 (events (Fixture.Sync 2 2 Fixture.fresh))
        ++ EvSaveNextBatch "@alice:example.org" "s1"
        :: EvProcessResponse (Fixture.snapshot "s1") ""
        :: EvSyncRequest 30000 "s1" "f1" false ""
        :: drop 13 (events (Fixture.Sync 2 2 Fixture.fresh))).
  { vm_compute. reflexivity. }
  split; [exact Hsplit|].
  exact (Sync_next_since_is_persisted_cursor Fixture.time_Parse
           Fixture.NewRequest Fixture.unmarshal_RespError Fixture.url_join
           Fixture.url_set_query Fixture.alice 2 2 Fixture.fresh _ _ _ _ _ _ _ _
           _ _ _ Hsplit).
Defined.

(** C2 at a loop of generation 0 that reads 1 after its long-poll. *)
Lemma sync_loop_superseded_witness :
  result (Fixture.sync_loop 2 1 0 "" "f1" Fixture.stopped) = Val None /\
  events (Fixture.sync_loop 2 1 0 "" "f1" Fixture.stopped) =
    events (Fixture.SyncRequest 2 30000 "" "f1" false "" Fixture.stopped)
      ++ [EvGetSyncingID 1] /\
  none_of is_persist (events (Fixture.sync_loop 2 1 0 "" "f1" Fixture.stopped)) /\
  none_of is_dispatch (events (Fixture.sync_loop 2 1 0 "" "f1" Fixture.stopped)).
Proof.
  apply (sync_loop_superseded Fixture.time_Parse Fixture.NewRequest
           Fixture.unmarshal_RespError Fixture.url_join Fixture.url_set_query
           Fixture.alice 2 0 0 "" "f1" Fixture.stopped
           (Some (Fixture.snapshot "s1")) 1).
  - vm_compute. reflexivity.
  - vm_compute. reflexivity.
  - discriminate.
Defined.

(** C8 at a restart with the filter id [f0] in the store. *)
Lemma Sync_stored_filter_skips_negotiation_witness :
  events (Fixture.Sync 2 2 Fixture.returning) =
    EvIncrementSyncingID 1 :: EvLoadNextBatch "@alice:example.org"
      :: EvLoadFilterID "@alice:example.org"
      :: events (Fixture.sync_loop 2 2 1 "" "f0"
                   {| syncingID := 1; world := world Fixture.returning |}) /\
  none_of is_filter_negotiation (events (Fixture.Sync 2 2 Fixture.returning)).
Proof.
  destruct (Sync_stored_filter_skips_negotiation Fixture.time_Parse
              Fixture.NewRequest Fixture.unmarshal_RespError Fixture.url_join
              Fixture.url_set_query Fixture.alice 2 2 Fixture.returning 1 ""
              (world Fixture.returning) "f0" (world Fixture.returning))
    as [Hevents [Hnone _]].
  - vm_compute. reflexivity.
  - vm_compute. reflexivity.
  - vm_compute. reflexivity.
  - discriminate.
  - split; [exact Hevents|exact Hnone].
Defined.

(** C5 at a first start: the filter [f1] is created and its id written. *)
Lemma Sync_negotiates_missing_filter_witness :
  events (Fixture.Sync 2 2 Fixture.fresh) =
    (EvIncrementSyncingID 1 :: EvLoadNextBatch "@alice:example.org"
       :: EvLoadFilterID "@alice:example.org"
       :: EvGetFilterJSON "@alice:example.org"
       :: events (Fixture.CreateFilter 2 Fixture.filter_json Fixture.started))
    ++ EvSaveFilterID "@alice:example.org" "f1"
    :: events (Fixture.sync_loop 2 2 1 "" "f1"
                 {| syncingID := 1;
                    world := SaveFilterID "@alice:example.org" "f1"
                               (world (final (Fixture.CreateFilter 2
                                                Fixture.filter_json
                                                Fixture.started))) |}).
Proof.
  refine (proj2 (proj2 (proj2
           (Sync_negotiates_missing_filter Fixture.time_Parse
              Fixture.NewRequest Fixture.unmarshal_RespError Fixture.url_join
              Fixture.url_set_query Fixture.alice 2 2 Fixture.fresh 1 ""
              (world Fixture.fresh) (world Fixture.fresh) Fixture.filter_json
              (world Fixture.fresh) _ _ _ _)))
           {| FilterID := "f1" |} _);
    vm_compute; reflexivity.
Defined.

(** C7 at three answers: no header, a date one minute after the epoch (the
    clock of the world is at the epoch), and [2]. *)
Lemma MakeRequest_backoff_duration_witness :
  (exists rest,
      events (Fixture.poll 1 (Fixture.limited_once [])) =
        EvDo Fixture.get_sync :: EvSleep 5000000000 :: rest) /\
  (exists rest,
      events (Fixture.poll 1
                (Fixture.limited_once ["Thu, 01 Jan 1970 00:01:00 GMT"])) =
        EvDo Fixture.get_sync :: EvSleep 60000000000 :: rest) /\
  (exists rest,
      events (Fixture.poll 1 (Fixture.limited_once ["2"])) =
        EvDo Fixture.get_sync :: EvSleep 2000000000 :: rest).
Proof.
  assert (Hall : forall retryAfter,
    let st := Fixture.limited_once retryAfter in
    let res := Fixture.response 429 retryAfter Fixture.limited in
    (Header res !! "Retry-After" = None ->
     exists rest,
       events (Fixture.poll 1 st) =
         EvDo Fixture.get_sync :: EvSleep 5000000000 :: rest) /\
    (forall t,
       Header_Get (Header res) "Retry-After" <> "" ->
       Fixture.time_Parse Go.http_TimeFormat (Header_Get (Header res) "Retry-After")
         = Some t ->
       exists rest,
         events (Fixture.poll 1 st) =
           EvDo Fixture.get_sync
             :: EvSleep (Go.time_Until t (time_Now (Fixture.answered st))) :: rest) /\
    (forall seconds,
       Header_Get (Header res) "Retry-After" <> "" ->
       Fixture.time_Parse Go.http_TimeFormat (Header_Get (Header res) "Retry-After")
         = None ->
       Go.strconv_Atoi (Header_Get (Header res) "Retry-After") = Some seconds ->
       exists rest,
         events (Fixture.poll 1 st) =
           EvDo Fixture.get_sync :: EvSleep (Go.int64 (seconds * Go.Second)) :: rest)).
  { intros retryAfter st res.
    apply (MakeRequest_backoff_duration Fixture.time_Parse Fixture.NewRequest
             Fixture.unmarshal_RespError Fixture.alice 0 "GET" "/sync"
             (@None RawMessage) (Some None) st Fixture.get_sync res
             (Fixture.answered st)).
    - vm_compute. reflexivity.
    - reflexivity.
    - reflexivity. }
  split; [|split].
  - apply (proj1 (Hall [])). vm_compute. reflexivity.
  - apply (proj1 (proj2 (Hall ["Thu, 01 Jan 1970 00:01:00 GMT"]))
             (60 * Go.Second)).
    + vm_compute. discriminate.
    + vm_compute. reflexivity.
  - apply (proj2 (proj2 (Hall ["2"])) 2).
    + vm_compute. discriminate.
    + vm_compute. reflexivity.
    + vm_compute. reflexivity.
Defined.

(** C10 at a 429 with [Retry-After: soon]. *)
Lemma MakeRequest_invalid_retry_after_witness :
  result (Fixture.poll 1 (Fixture.limited_once ["soon"]))
    = Val (Some None, Some (errors_New "invalid retry-after data")) /\
  events (Fixture.poll 1 (Fixture.limited_once ["soon"])) = [EvDo Fixture.get_sync].
Proof.
  apply (MakeRequest_invalid_retry_after Fixture.time_Parse Fixture.NewRequest
           Fixture.unmarshal_RespError Fixture.alice 0 "GET" "/sync"
           (@None RawMessage) (Some None) (Fixture.limited_once ["soon"])
           Fixture.get_sync (Fixture.response 429 ["soon"] Fixture.limited)
           (Fixture.answered (Fixture.limited_once ["soon"]))).
  - vm_compute. reflexivity.
  - vm_compute. reflexivity.
  - reflexivity.
  - vm_compute. discriminate.
  - vm_compute. reflexivity.
  - vm_compute. reflexivity.
Defined.


(** C3 at the server that answers 429 for ever, at depth 3. *)
Lemma MakeRequest_429_retries_without_bound_witness :
  result (Fixture.poll 3 Fixture.never_ready) = OutOfFuel /\
  exists durs,
    length durs = 3%nat /\
    events (Fixture.poll 3 Fixture.never_ready) =
      flat_map (fun dur => [EvDo Fixture.get_sync; EvSleep dur]) durs.
Proof.
  apply (MakeRequest_429_retries_without_bound Fixture.time_Parse
           Fixture.NewRequest Fixture.unmarshal_RespError Fixture.alice
           Fixture.out_of_answers "GET" "/sync" (@None RawMessage) (Some None)
           Fixture.get_sync 3 Fixture.never_ready).
  - vm_compute. reflexivity.
  - exact never_ready_stays_limited.
  - split; reflexivity.
Defined.

(** C3 as stated fails: the server that answers 429 for ever keeps
    [MakeRequest] from returning at every depth of its recursion, and
    against two 429 and a 200 one call makes three round trips. *)
Lemma MakeRequest_429_not_bounded :
  (~ exists fuel, result (Fixture.poll fuel Fixture.never_ready) <> OutOfFuel) /\
  length (List.filter is_round_trip (events (Fixture.poll 5 Fixture.ready_at_last)))
    = 3%nat.
Proof.
  split; [|vm_compute; reflexivity].
  intros [fuel Hreturns]. apply Hreturns.
  apply (MakeRequest_limited Fixture.time_Parse Fixture.NewRequest
           Fixture.unmarshal_RespError Fixture.alice
           Fixture.out_of_answers "GET" "/sync" (@None RawMessage) (Some None)
           Fixture.get_sync).
  - vm_compute. reflexivity.
  - exact never_ready_stays_limited.
  - split; reflexivity.
Qed.

(** C6 at a 403 with a structured error. *)
Lemma MakeRequest_error_response_witness :
  exists e : HTTPError,
    result (Fixture.poll 1 Fixture.forbidden)
      = Val (Some None, Some (HTTPError_error e)) /\
    Code e = 403 /\
    Contents e = Fixture.json_object "errcode" "M_FORBIDDEN".
Proof.
  destruct (MakeRequest_error_response Fixture.time_Parse Fixture.NewRequest
              Fixture.unmarshal_RespError Fixture.alice 0 "GET" "/sync"
              (@None RawMessage) (Some None) Fixture.forbidden
              Fixture.get_sync
              (Fixture.response 403 []
                 {| body_bytes := Fixture.json_object "errcode" "M_FORBIDDEN";
                    body_err := None |})
              (Fixture.answered Fixture.forbidden)
              {| body_bytes := Fixture.json_object "errcode" "M_FORBIDDEN";
                 body_err := None |})
    as [Hread _].
  - vm_compute. reflexivity.
  - vm_compute. reflexivity.
  - discriminate.
  - vm_compute. discriminate.
  - reflexivity.
  - destruct (Hread eq_refl) as (e & Hresult & Hcode & Hcontents & _).
    exists e. split; [exact Hresult|]. split; [exact Hcode|exact Hcontents].
Defined.

(** C6 as stated fails: for a 500 whose body breaks off, [MakeRequest]
    returns the error of the read, which is no [HTTPError]. *)
Lemma MakeRequest_error_not_always_HTTPError :
  http_Client_Do Fixture.get_sync (world Fixture.cut_off) =
    (Some (Fixture.response 500 []
             {| body_bytes := []; body_err := Some Fixture.unexpected_EOF |}),
     None, Fixture.answered Fixture.cut_off) /\
  result (Fixture.poll 1 Fixture.cut_off)
    = Val (Some None, Some Fixture.unexpected_EOF) /\
  forall e : HTTPError, Fixture.unexpected_EOF <> HTTPError_error e.
Proof.
  split; [vm_compute; reflexivity|].
  split; [vm_compute; reflexivity|].
  intros e. discriminate.
Qed.

End Scripted_runs.

(** ** Further runs in the scripted world *)

Section More_scripted_runs.

Local Existing Instances Fixture.runtime Fixture.store Fixture.syncer
  Fixture.uploads Fixture.encode_raw Fixture.decode_filter Fixture.decode_sync
  Fixture.decode_register Fixture.decode_upload.

(** Two 429 and a 200: the same GET three times. *)
Lemma MakeRequest_resends_same_request_witness :
  exists durs last,
    events (Fixture.poll 5 Fixture.ready_at_last) =
      flat_map (fun dur => [EvDo Fixture.get_sync; EvSleep dur]) durs ++ last /\
    (last = [] \/ last = [EvDo Fixture.get_sync]).
Proof.
  apply (MakeRequest_resends_same_request Fixture.time_Parse Fixture.NewRequest
           Fixture.unmarshal_RespError Fixture.alice 5 "GET" "/sync"
           (@None RawMessage) (Some None) Fixture.ready_at_last Fixture.get_sync).
  vm_compute. reflexivity.
Defined.

(** After [ClearCredentials] the GET of [/sync] has no [Authorization]. *)
Lemma MakeRequest_cleared_credentials_no_bearer_witness :
  Forall (fun e =>
            match e with
            | EvDo req => ReqHeader req !! "Authorization" = None
            | _ => True
            end)
         (events (MakeRequest Fixture.time_Parse Fixture.NewRequest
                    Fixture.unmarshal_RespError (ClearCredentials Fixture.alice)
                    1 "GET" "/sync" (@None RawMessage) (Some (@None RespSync))
                    Fixture.returning)).
Proof.
  apply (MakeRequest_cleared_credentials_no_bearer Fixture.time_Parse
           Fixture.NewRequest Fixture.unmarshal_RespError Fixture.alice 1 "GET"
           "/sync" (@None RawMessage) (Some (@None RespSync)) Fixture.returning).
  intros m u body req0 [= <-]. reflexivity.
Defined.

(** A 200 with a snapshot. *)
Lemma MakeRequest_2xx_witness :
  events (Fixture.poll 1 Fixture.returning) = [EvDo Fixture.get_sync] /\
  result (Fixture.poll 1 Fixture.returning) =
    Val (Some (Some (Fixture.snapshot "s1")), None).
Proof.
  destruct (MakeRequest_2xx Fixture.time_Parse Fixture.NewRequest
              Fixture.unmarshal_RespError Fixture.alice 0 "GET" "/sync"
              (@None RawMessage) (Some (@None RespSync)) Fixture.returning
              Fixture.get_sync
              (Fixture.response 200 []
                 {| body_bytes := Fixture.json_object "next_batch" "s1";
                    body_err := None |})
              (Fixture.answered Fixture.returning))
    as [Hevents Hresult].
  - vm_compute. reflexivity.
  - vm_compute. reflexivity.
  - cbn. lia.
  - split; [exact Hevents|].
    refine (eq_trans Hresult _). vm_compute. reflexivity.
Defined.

(** A refused connection. *)
Lemma MakeRequest_transport_error_witness :
  events (Fixture.poll 1 Fixture.offline) = [EvDo Fixture.get_sync] /\
  result (Fixture.poll 1 Fixture.offline) =
    Val (Some None, Some (foreign_error "net" "connection refused")).
Proof.
  apply (MakeRequest_transport_error Fixture.time_Parse Fixture.NewRequest
           Fixture.unmarshal_RespError Fixture.alice 0 "GET" "/sync"
           (@None RawMessage) (Some (@None RespSync)) Fixture.offline
           Fixture.get_sync None (foreign_error "net" "connection refused")
           (world Fixture.offline)).
  - vm_compute. reflexivity.
  - vm_compute. reflexivity.
Defined.

(** A method with a space in it. *)
Lemma MakeRequest_build_failure_witness :
  events (MakeRequest Fixture.time_Parse Fixture.checked_NewRequest
            Fixture.unmarshal_RespError Fixture.alice 1 "GET IT" "/sync"
            (@None RawMessage) (Some (@None RespSync)) Fixture.returning) = [] /\
  result (MakeRequest Fixture.time_Parse Fixture.checked_NewRequest
            Fixture.unmarshal_RespError Fixture.alice 1 "GET IT" "/sync"
            (@None RawMessage) (Some (@None RespSync)) Fixture.returning) =
    Val (Some None, Some (foreign_error "net/http" "invalid method")).
Proof.
  apply (MakeRequest_build_failure Fixture.time_Parse Fixture.checked_NewRequest
           Fixture.unmarshal_RespError Fixture.alice 0 "GET IT" "/sync"
           (@None RawMessage) (Some (@None RespSync)) Fixture.returning
           (foreign_error "net/http" "invalid method")).
  vm_compute. reflexivity.
Defined.

(** [Retry-After: 2]. *)
Lemma HandleRetry_seconds_exact_witness :
  snd (HandleRetry Fixture.time_Parse (Fixture.response 429 ["2"] Fixture.limited)
         sleep 0) = None /\
  (fst (HandleRetry Fixture.time_Parse (Fixture.response 429 ["2"] Fixture.limited)
          sleep 0) = 2 * Go.Second <->
   -9223372036 <= 2 <= 9223372036).
Proof.
  apply (HandleRetry_seconds_exact Fixture.time_Parse
           (Fixture.response 429 ["2"] Fixture.limited) sleep 0 2).
  - vm_compute. discriminate.
  - vm_compute. reflexivity.
  - vm_compute. reflexivity.
Defined.

(** A counter at 0 with one call of another goroutine pending. *)
Lemma generation_counter_modulo_witness :
  (result (getSyncingID Fixture.stopped) = Val (syncingID Fixture.stopped) <->
   Z.of_nat (fst (other_goroutines (world Fixture.stopped))) mod 2 ^ 32 = 0) /\
  (result (incrementSyncingID Fixture.stopped) = Val (syncingID Fixture.stopped) <->
   (Z.of_nat (fst (other_goroutines (world Fixture.stopped))) + 1) mod 2 ^ 32 = 0).
Proof.
  apply (generation_counter_modulo Fixture.stopped).
  vm_compute. split; [discriminate|reflexivity].
Defined.

(** A snapshot, a refused connection, a snapshot: the long-poll after the
    failure asks for [s1] again. *)
Lemma Sync_retries_same_cursor_witness :
  events (Fixture.Sync 2 3 Fixture.flaky) =
    take 8 (events (Fixture.Sync 2 3 Fixture.flaky))
      ++ EvSyncRequest 30000 "s1" "f0" false ""
      :: take 1 (drop 9 (events (Fixture.Sync 2 3 Fixture.flaky)))
      ++ EvOnFailedSync None (foreign_error "net" "connection refused")
      :: EvSleep (10 * Go.Second)
      :: EvSyncRequest 30000 "s1" "f0" false ""
      :: drop 13 (events (Fixture.Sync 2 3 Fixture.flaky)) /\
  "s1" = "s1".
Proof.
  assert (Hsplit :
    events (Fixture.Sync 2 3 Fixture.flaky) =
      take 8 (events (Fixture.Sync 2 3 Fixture.flaky))
        ++ EvSyncRequest 30000 "s1" "f0" false ""
        :: take 1 (drop 9 (events (Fixture.Sync 2 3 Fixture.flaky)))
        ++ EvOnFailedSync None (foreign_error "net" "connection refused")
        :: EvSleep (10 * Go.Second)
        :: EvSyncRequest 30000 "s1" "f0" false ""
        :: drop 13 (events (Fixture.Sync 2 3 Fixture.flaky))).
  { vm_compute. reflexivity. }
  split; [exact Hsplit|].
  refine (Sync_retries_same_cursor Fixture.time_Parse Fixture.NewRequest
            Fixture.unmarshal_RespError Fixture.url_join Fixture.url_set_query
            Fixture.alice 2 3 Fixture.flaky _ _ _ _ _ _ _ _ _ _ _ _ _ _ _ _
            Hsplit _).
  repeat constructor.
Defined.

(** The second dispatch of a first start is called with [s1], the cursor
    of the long-poll before it. *)
Lemma Sync_dispatch_since_witness :
  last_since None (take 16 (events (Fixture.Sync 2 2 Fixture.fresh))) = Some "s1".
Proof.
  apply (Sync_dispatch_since Fixture.time_Parse Fixture.NewRequest
           Fixture.unmarshal_RespError Fixture.url_join Fixture.url_set_query
           Fixture.alice 2 2 Fixture.fresh
           (take 16 (events (Fixture.Sync 2 2 Fixture.fresh)))
           (Fixture.snapshot "s2") "s1"
           (drop 17 (events (Fixture.Sync 2 2 Fixture.fresh)))).
  vm_compute. reflexivity.
Defined.

(** A hook that gives up when the server cannot be reached. *)
Lemma sync_loop_hook_error_witness :
  result (Variants.strict_sync_loop 1 1 0 "" "f0" Fixture.offline)
    = Val (Some (errors_New "giving up")) /\
  events (Variants.strict_sync_loop 1 1 0 "" "f0" Fixture.offline) =
    events (Fixture.SyncRequest 1 30000 "" "f0" false "" Fixture.offline)
      ++ [EvOnFailedSync None (foreign_error "net" "connection refused")].
Proof.
  apply (sync_loop_hook_error (Syncer0 := Variants.strict_syncer)
           Fixture.time_Parse Fixture.NewRequest Fixture.unmarshal_RespError
           Fixture.url_join Fixture.url_set_query Fixture.alice 1 0 0 "" "f0"
           Fixture.offline None (foreign_error "net" "connection refused") 0
           (errors_New "giving up") (world Fixture.offline)).
  - vm_compute. reflexivity.
  - vm_compute. reflexivity.
Defined.

(** A syncer that cannot process the snapshot [s1]: the cursor is written
    all the same. *)
Lemma sync_loop_dispatch_error_witness :
  result (Variants.strict_sync_loop 1 1 0 "" "f0" Fixture.returning)
    = Val (Some (errors_New "cannot process")) /\
  events (Variants.strict_sync_loop 1 1 0 "" "f0" Fixture.returning) =
    events (Fixture.SyncRequest 1 30000 "" "f0" false "" Fixture.returning)
      ++ [EvGetSyncingID 0; EvSaveNextBatch "@alice:example.org" "s1";
          EvProcessResponse (Fixture.snapshot "s1") ""] /\
  Fixture.cursors (world (final (Variants.strict_sync_loop 1 1 0 "" "f0" Fixture.returning)))
    !! "@alice:example.org" = Some "s1".
Proof.
  destruct (sync_loop_dispatch_error (Syncer0 := Variants.strict_syncer)
              Fixture.time_Parse Fixture.NewRequest Fixture.unmarshal_RespError
              Fixture.url_join Fixture.url_set_query Fixture.alice 1 0 0 "" "f0"
              Fixture.returning (Fixture.snapshot "s1")
              (errors_New "cannot process")
              (SaveNextBatch "@alice:example.org" "s1"
                 (Fixture.answered Fixture.returning)))
    as (Hresult & Hevents & Hworld).
  - vm_compute. reflexivity.
  - vm_compute. reflexivity.
  - vm_compute. reflexivity.
  - split; [exact Hresult|]. split; [exact Hevents|].
    unfold Variants.strict_sync_loop. rewrite Hworld. vm_compute. reflexivity.
Defined.

(** A server that answers [null]. *)
Lemma sync_loop_nil_snapshot_witness :
  result (Variants.null_sync_loop 1 1 0 "" "f0" Fixture.null_answer)
    = Panic "nil pointer dereference" /\
  events (Variants.null_sync_loop 1 1 0 "" "f0" Fixture.null_answer) =
    events (Variants.null_SyncRequest 1 30000 "" "f0" false "" Fixture.null_answer)
      ++ [EvGetSyncingID 0].
Proof.
  apply (sync_loop_nil_snapshot (JSONDecode1 := Variants.decode_sync_null)
           Fixture.time_Parse Fixture.NewRequest Fixture.unmarshal_RespError
           Fixture.url_join Fixture.url_set_query Fixture.alice 1 0 0 "" "f0"
           Fixture.null_answer).
  - vm_compute. reflexivity.
  - vm_compute. reflexivity.
Defined.

(** A 401 with the session [xyz]. *)
Lemma register_401_witness :
  result (Fixture.register 1 "/register" Fixture.filter_json Fixture.interactive) =
    Val (None,
         Some {| Flows := []; Params := ∅; Session := "xyz"; Completed := [];
                 UIA_ErrCode := ""; UIA_Error := "" |},
         None).
Proof.
  refine (eq_trans
    (register_401 Fixture.time_Parse Fixture.NewRequest
       Fixture.unmarshal_RespError Fixture.unmarshal_UIA Fixture.alice 0
       "/register" Fixture.filter_json Fixture.interactive Fixture.post_register
       (Fixture.response 401 []
          {| body_bytes := Fixture.json_object "session" "xyz";
             body_err := None |})
       (Fixture.answered Fixture.interactive)
       {| body_bytes := Fixture.json_object "session" "xyz"; body_err := None |}
       _ _ _ _ _) _);
    vm_compute; reflexivity.
Defined.

(** A 403 with a structured error. *)
Lemma register_other_status_witness :
  exists e : HTTPError,
    result (Fixture.register 1 "/register" Fixture.filter_json Fixture.forbidden) =
      Val (None, None, Some (HTTPError_error e)) /\
    Code e = 403.
Proof.
  eexists. split.
  - apply (register_other_status Fixture.time_Parse Fixture.NewRequest
             Fixture.unmarshal_RespError Fixture.unmarshal_UIA Fixture.alice 0
             "/register" Fixture.filter_json Fixture.forbidden
             Fixture.post_register
             (Fixture.response 403 []
                {| body_bytes := Fixture.json_object "errcode" "M_FORBIDDEN";
                   body_err := None |})
             (Fixture.answered Fixture.forbidden)
             {| body_bytes := Fixture.json_object "errcode" "M_FORBIDDEN";
                body_err := None |}).
    + vm_compute. reflexivity.
    + vm_compute. reflexivity.
    + discriminate.
    + discriminate.
    + vm_compute. discriminate.
    + reflexivity.
    + reflexivity.
  - reflexivity.
Defined.

(** A 201 with a content URI is an error of the upload. *)
Lemma UploadToContentRepo_not_200_witness :
  events (Fixture.UploadToContentRepo Fixture.picture "image/png" 3 Fixture.created)
    = [EvDo Fixture.post_upload] /\
  result (Fixture.UploadToContentRepo Fixture.picture "image/png" 3 Fixture.created)
    = Val (None,
           Some (HTTPError_error
                   {| Contents := Fixture.json_object "content_uri" "mxc://a/b";
                      WrappedError := None;
                      Message := "Upload request failed: "
                                   +:+ string_of_list_byte
                                         (Fixture.json_object "content_uri" "mxc://a/b");
                      Code := 201 |})).
Proof.
  destruct (UploadToContentRepo_not_200 Fixture.NewRequest Fixture.url_join
              Fixture.alice Fixture.picture "image/png" 3 Fixture.created
              Fixture.post_upload
              (Fixture.response 201 []
                 {| body_bytes := Fixture.json_object "content_uri" "mxc://a/b";
                    body_err := None |})
              (Fixture.answered Fixture.created)
              {| body_bytes := Fixture.json_object "content_uri" "mxc://a/b";
                 body_err := None |})
    as (Hevents & Hread & _).
  - vm_compute. reflexivity.
  - vm_compute. reflexivity.
  - discriminate.
  - reflexivity.
  - split; [exact Hevents|]. exact (Hread eq_refl).
Defined.

End More_scripted_runs.
